(** * ChatInterface: the upload/chat component and its rendering helpers

    A shallow embedding of the React component [ChatInterface] (the
    revision with structured forecast rendering): the message log and
    the session state it owns, the two event handlers [handleFileUpload]
    and [handleSend], and the pure rendering helpers [cleanAssistantText]
    and [DataTable].

    JavaScript strings are sequences of UTF-16 code units, JSON values
    are an inductive type, message identifiers are IEEE binary64 numbers
    and the handlers run in a state-and-exception monad over the
    component state, the file picker and the log of issued requests. *)

From Stdlib Require Import ZArith NArith List String Ascii Floats Lia.
From stdpp Require Import base decidable option list.

Set Default Proof Using "Type".
Set Warnings "-register-all".
Local Open Scope Z_scope.

(* ===================================================================== *)
(** ** JavaScript strings *)
(* ===================================================================== *)

Module JSString.

(** A string value is its sequence of 16-bit code units. *)
Definition jsstring : Type := list N.

(** Literals of the source are ASCII; [u16] embeds them. *)
Definition u16 (s : string) : jsstring :=
  List.map N_of_ascii (list_ascii_of_string s).
Arguments u16 s%_string.

Definition LF : jsstring := [10%N].

(** [WhiteSpace] and [LineTerminator] code points of ECMAScript, the
    characters removed by [String.prototype.trim]. *)
Definition is_white_space (c : N) : bool :=
  ((9 <=? c) && (c <=? 13) || (c =? 32) || (c =? 160) || (c =? 5760)
   || (8192 <=? c) && (c <=? 8202)
   || (c =? 8232) || (c =? 8233) || (c =? 8239) || (c =? 8287)
   || (c =? 12288) || (c =? 65279))%N.

Fixpoint trimStart (s : jsstring) : jsstring :=
  match s with
  | c :: s' => if is_white_space c then trimStart s' else s
  | [] => []
  end.

Definition trimEnd (s : jsstring) : jsstring := rev (trimStart (rev s)).

Definition trim (s : jsstring) : jsstring := trimEnd (trimStart s).

(** [m] is a prefix of [t], code unit by code unit. *)
Fixpoint starts_with (m t : jsstring) : bool :=
  match m, t with
  | [], _ => true
  | a :: m', b :: t' => (a =? b)%N && starts_with m' t'
  | _ :: _, [] => false
  end.

(** [t.indexOf(m)]: the least position at which [m] occurs, or [-1]. *)
Fixpoint indexOf_from (t m : jsstring) (pos : Z) : Z :=
  if starts_with m t then pos
  else match t with
       | [] => -1
       | _ :: t' => indexOf_from t' m (pos + 1)
       end.

Definition indexOf (t m : jsstring) : Z := indexOf_from t m 0.

(** [t.slice(0, e)]: a negative end counts from the end of the string. *)
Definition slice0 (t : jsstring) (e : Z) : jsstring :=
  if e <? 0 then take (Z.to_nat (Z.max 0 (Z.of_nat (length t) + e))) t
  else take (Z.to_nat e) t.

(** Decimal digits of a non-negative integer, as [ToString] prints an
    array index, a length or an HTTP status. *)
Fixpoint dec_digits (fuel : nat) (n : N) (acc : jsstring) : jsstring :=
  match fuel with
  | O => acc
  | S fuel' =>
      let acc' := (48 + n mod 10)%N :: acc in
      if (n <? 10)%N then acc' else dec_digits fuel' (n / 10)%N acc'
  end.

Definition dec (n : N) : jsstring := dec_digits (S (N.to_nat (N.log2 n))) n [].

(** [m] occurs in [t] at position [p]. *)
Definition occurs_at (m t : jsstring) (p : nat) : Prop :=
  exists pre post, t = pre ++ m ++ post /\ length pre = p.

End JSString.
Export JSString.

(* ===================================================================== *)
(** ** JavaScript values *)
(* ===================================================================== *)

(** The kinds of value whose properties can be read: each has its own
    prototype ([Object.prototype], [Array.prototype], ...). *)
Inductive receiver : Type :=
  | of_Object | of_Array | of_String | of_Number | of_Boolean.

(** What a property read can find on a prototype chain instead of among
    the own properties of a parsed value: a built-in function, known by
    its [name], or (through the accessor [__proto__]) a prototype
    object itself. *)
Inductive builtin : Type :=
  | BuiltinFunction (name : jsstring)
  | Prototype (r : receiver).

(** Numbers that arrive in JSON bodies are kept abstract: the component
    only tests them for truthiness and prints them.  The host also
    decides which names the prototypes define and how a built-in
    function prints. *)
Class JSNumber := {
  number : Type;
  number_truthy : number -> bool;          (* ToBoolean *)
  number_to_string : number -> jsstring;   (* Number::toString *)
  number_of_nat : nat -> number;           (* a length *)
  inherited : receiver -> jsstring -> option builtin;
                        (* the member the prototype chain of such a value
                           holds under a name, if any *)
  function_to_string : jsstring -> jsstring
                        (* String(f) for the built-in function of that name *)
}.

Section Values.
Context {Num : JSNumber}.

(** Values reachable from a parsed JSON body, plus [undefined] for the
    result of reading an absent property.  An object lists its own
    enumerable properties in enumeration order. *)
Inductive jsval : Type :=
  | VUndefined
  | VNull
  | VBool (b : bool)
  | VNum (n : number)
  | VStr (s : jsstring)
  | VArr (items : list jsval)
  | VObj (props : list (jsstring * jsval)).

(** [ToBoolean]. *)
Definition truthy (v : jsval) : bool :=
  match v with
  | VUndefined | VNull => false
  | VBool b => b
  | VNum n => number_truthy n
  | VStr s => match s with [] => false | _ => true end
  | VArr _ | VObj _ => true
  end.

(** [a || b] on values whose evaluation has no effect. *)
Definition js_or (a b : jsval) : jsval := if truthy a then a else b.

Definition isArray (v : jsval) : bool :=
  match v with VArr _ => true | _ => false end.

Definition is_nullish (v : jsval) : bool :=
  match v with VUndefined | VNull => true | _ => false end.

(** [String(v)] and template-literal interpolation. *)
Fixpoint to_String (v : jsval) : jsstring :=
  match v with
  | VUndefined => u16 "undefined"
  | VNull => u16 "null"
  | VBool true => u16 "true"
  | VBool false => u16 "false"
  | VNum n => number_to_string n
  | VStr s => s
  | VArr items =>
      (fix join (l : list jsval) : jsstring :=
         match l with
         | [] => []
         | x :: l' =>
             let sx := match x with
                       | VUndefined | VNull => []
                       | _ => to_String x
                       end in
             match l' with
             | [] => sx
             | _ :: _ => sx ++ u16 "," ++ join l'
             end
         end) items
  | VObj _ => u16 "[object Object]"
  end.

Fixpoint assoc (k : jsstring) (props : list (jsstring * jsval)) : option jsval :=
  match props with
  | [] => None
  | (k', v) :: props' => if decide (k' = k) then Some v else assoc k props'
  end.

(** The position [i < len] whose canonical decimal form is [k]. *)
Definition array_index (k : jsstring) (len : nat) : option nat :=
  List.find (fun i => bool_decide (dec (N.of_nat i) = k)) (seq 0 len).

(** [v?.k] for a field name [k] written in the component ([data.ok],
    [results.forecast_head], [cfg?.ds_col], ...).  No prototype defines
    one of these names, so the read is decided by the own properties of
    [v]: [undefined] when [v] is null or undefined or has no such
    property ([get_member_own] below states the agreement with the
    read through the prototype chain).  A read under a computed key is
    [get_member]. *)
Definition get_opt (v : jsval) (k : jsstring) : jsval :=
  match v with
  | VObj props => default VUndefined (assoc k props)
  | VArr items =>
      if decide (k = u16 "length") then VNum (number_of_nat (length items))
      else match array_index k (length items) with
           | Some i => default VUndefined (items !! i)
           | None => VUndefined
           end
  | VStr s =>
      if decide (k = u16 "length") then VNum (number_of_nat (length s))
      else match array_index k (length s) with
           | Some i => match s !! i with Some c => VStr [c] | None => VUndefined end
           | None => VUndefined
           end
  | _ => VUndefined
  end.

(** The result of a read under a computed key: a value, or a built-in
    found on the prototype chain. *)
Inductive read : Type :=
  | Own (v : jsval)
  | Inherited (b : builtin).

Definition prototype_chain (r : receiver) (k : jsstring) : read :=
  match inherited r k with
  | Some b => Inherited b
  | None => Own VUndefined
  end.

(** [v?.[k]] for any key [k]: the own property when there is one, else
    what the prototype chain of [v] holds under [k], else [undefined];
    [undefined] also when [v] is null or undefined. *)
Definition get_member (v : jsval) (k : jsstring) : read :=
  match v with
  | VUndefined | VNull => Own VUndefined
  | VBool _ => prototype_chain of_Boolean k
  | VNum _ => prototype_chain of_Number k
  | VStr s =>
      if decide (k = u16 "length") then Own (VNum (number_of_nat (length s)))
      else match array_index k (length s) with
           | Some i => match s !! i with
                       | Some c => Own (VStr [c])
                       | None => Own VUndefined
                       end
           | None => prototype_chain of_String k
           end
  | VArr items =>
      if decide (k = u16 "length") then Own (VNum (number_of_nat (length items)))
      else match array_index k (length items) with
           | Some i => Own (default VUndefined (items !! i))
           | None => prototype_chain of_Array k
           end
  | VObj props =>
      match assoc k props with
      | Some x => Own x
      | None => prototype_chain of_Object k
      end
  end.

(** [String(b)] for a built-in: the host's text of a function; a
    prototype object prints as the empty value of its kind. *)
Definition builtin_to_String (b : builtin) : jsstring :=
  match b with
  | BuiltinFunction name => function_to_string name
  | Prototype of_Object => u16 "[object Object]"
  | Prototype of_Array => []
  | Prototype of_String => []
  | Prototype of_Number => u16 "0"
  | Prototype of_Boolean => u16 "false"
  end.

(** The prototype a value's reads fall back on; none for null and
    undefined. *)
Definition receiver_of (v : jsval) : option receiver :=
  match v with
  | VUndefined | VNull => None
  | VBool _ => Some of_Boolean
  | VNum _ => Some of_Number
  | VStr _ => Some of_String
  | VArr _ => Some of_Array
  | VObj _ => Some of_Object
  end.

(** [Object.keys(v)] for a [v] that is neither null nor undefined (the
    only call passes [r || {}]). *)
Definition Object_keys (v : jsval) : list jsstring :=
  match v with
  | VObj props => List.map fst props
  | VArr items => List.map (fun i => dec (N.of_nat i)) (seq 0 (length items))
  | VStr s => List.map (fun i => dec (N.of_nat i)) (seq 0 (length s))
  | _ => []
  end.

End Values.

(** What the host engine does and the component does not decide. *)
Class Engine {Num : JSNumber} := {
  JSON_stringify_2 : jsval -> jsstring;              (* JSON.stringify(v, null, 2) *)
  read_of_nullish_message : jsval -> jsstring -> jsstring;
                                   (* message of the TypeError of [null.k] *)
  not_a_function_message : jsstring -> jsstring
                                   (* message of the TypeError of calling [callee()]
                                      when [callee] is undefined *)
}.

(* ===================================================================== *)
(** ** The component: message log, session state, environment *)
(* ===================================================================== *)

Section Component.
Context {Num : JSNumber} {Eng : Engine}.

Inductive Sender := user | bot.

Inductive Kind := upload_preview | forecast.

(** The fields a message carries besides [id], [sender] and [isError]. *)
Inductive Content :=
  | Text (text : jsstring)
  | UploadPreview (filename dataset_id : jsval) (headRows : list jsval)
  | Forecast (assistantText results : jsval).

(** [isError] is [None] where the object literal has no such field. *)
Record Message := mkMessage {
  id : float;
  sender : Sender;
  isError : option bool;
  content : Content
}.

Definition kind (m : Message) : option Kind :=
  match content m with
  | Text _ => None
  | UploadPreview _ _ _ => Some upload_preview
  | Forecast _ _ => Some forecast
  end.

(** A thrown [Error]; handlers read only its [message]. *)
Record Exn := Error { exn_message : jsstring }.

Record File := mkFile { file_name : jsstring }.

Inductive RequestBody :=
  | FormData (fields : list (jsstring * File))
  | JSON_stringify (v : jsval).

Record Request := mkRequest {
  url : jsstring;
  method : jsstring;
  headers : list (jsstring * jsstring);
  body : RequestBody
}.

(** What comes back from the network: [response.json()] either rejects
    or yields the parsed body. *)
Record Response := mkResponse {
  status : N;
  json : Exn + jsval
}.

Definition response_ok (r : Response) : bool :=
  ((200 <=? status r) && (status r <=? 299))%N.

Inductive FetchOutcome :=
  | NetworkError (e : Exn)
  | Responded (r : Response).

(** The [useState] cells. *)
Record State := mkState {
  messages : list Message;
  input : jsstring;
  isLoading : bool;
  datasetId : jsval;
  fileName : jsval;
  uploadError : jsstring;
  chatError : jsstring
}.

(** The component state together with what the handlers touch outside
    it: the file picker's value, the requests handed to [fetch], the
    console, and the clock and random source read for identifiers. *)
Record World := mkWorld {
  state : State;
  picker_value : jsstring;
  requests : list Request;
  console : list Exn;
  Date_now : nat -> float;
  now_calls : nat;
  Math_random : nat -> float;
  random_calls : nat
}.

Definition initial_state : State :=
  {| messages := [ {| id := 1%float; sender := bot; isError := None;
                      content := Text (u16 "Hello! Upload a CSV file to begin.") |} ];
     input := [];
     isLoading := false;
     datasetId := VNull;
     fileName := VStr [];
     uploadError := [];
     chatError := [] |}.

Definition with_state (f : State -> State) (w : World) : World :=
  {| state := f (state w); picker_value := picker_value w;
     requests := requests w; console := console w;
     Date_now := Date_now w; now_calls := now_calls w;
     Math_random := Math_random w; random_calls := random_calls w |}.

(* --------------------------------------------------------------------- *)
(** *** State and exceptions *)

Inductive Outcome (A : Type) :=
  | Returned (a : A)
  | Thrown (e : Exn).
Arguments Returned {A} a.
Arguments Thrown {A} e.

Definition M (A : Type) : Type := World -> Outcome A * World.

#[local] Instance M_ret : MRet M := fun A a w => (Returned a, w).

#[local] Instance M_bind : MBind M := fun A B k m w =>
  match m w with
  | (Returned a, w') => k a w'
  | (Thrown e, w') => (Thrown e, w')
  end.

Definition throw {A} (e : Exn) : M A := fun w => (Thrown e, w).

Definition modify (f : World -> World) : M unit := fun w => (Returned tt, f w).

Definition reads {A} (f : World -> A) : M A := fun w => (Returned (f w), w).

(** [try { body } catch (err) { handler } finally { final }]. *)
Definition try_catch_finally (body : M unit) (handler : Exn -> M unit)
    (final : M unit) : M unit := fun w =>
  match body w with
  | (Returned _, w1) => final w1
  | (Thrown e, w1) =>
      match handler e w1 with
      | (Returned _, w2) => final w2
      | (Thrown e', w2) =>
          match final w2 with
          | (Returned _, w3) => (Thrown e', w3)
          | (Thrown e'', w3) => (Thrown e'', w3)
          end
      end
  end.

(** The world a handler leaves behind. *)
Definition exec {A} (m : M A) (w : World) : World := snd (m w).

(* --------------------------------------------------------------------- *)
(** *** Setters and primitive effects *)

Definition setMessages (f : list Message -> list Message) : M unit :=
  modify (with_state (fun s =>
    {| messages := f (messages s); input := input s; isLoading := isLoading s;
       datasetId := datasetId s; fileName := fileName s;
       uploadError := uploadError s; chatError := chatError s |})).

Definition setInput (v : jsstring) : M unit :=
  modify (with_state (fun s =>
    {| messages := messages s; input := v; isLoading := isLoading s;
       datasetId := datasetId s; fileName := fileName s;
       uploadError := uploadError s; chatError := chatError s |})).

Definition setIsLoading (v : bool) : M unit :=
  modify (with_state (fun s =>
    {| messages := messages s; input := input s; isLoading := v;
       datasetId := datasetId s; fileName := fileName s;
       uploadError := uploadError s; chatError := chatError s |})).

Definition setDatasetId (v : jsval) : M unit :=
  modify (with_state (fun s =>
    {| messages := messages s; input := input s; isLoading := isLoading s;
       datasetId := v; fileName := fileName s;
       uploadError := uploadError s; chatError := chatError s |})).

Definition setFileName (v : jsval) : M unit :=
  modify (with_state (fun s =>
    {| messages := messages s; input := input s; isLoading := isLoading s;
       datasetId := datasetId s; fileName := v;
       uploadError := uploadError s; chatError := chatError s |})).

Definition setUploadError (v : jsstring) : M unit :=
  modify (with_state (fun s =>
    {| messages := messages s; input := input s; isLoading := isLoading s;
       datasetId := datasetId s; fileName := fileName s;
       uploadError := v; chatError := chatError s |})).

Definition setChatError (v : jsstring) : M unit :=
  modify (with_state (fun s =>
    {| messages := messages s; input := input s; isLoading := isLoading s;
       datasetId := datasetId s; fileName := fileName s;
       uploadError := uploadError s; chatError := v |})).

(** [e.target.value = v] on the file input. *)
Definition set_picker_value (v : jsstring) : M unit :=
  modify (fun w =>
    {| state := state w; picker_value := v;
       requests := requests w; console := console w;
       Date_now := Date_now w; now_calls := now_calls w;
       Math_random := Math_random w; random_calls := random_calls w |}).

Definition console_error (e : Exn) : M unit :=
  modify (fun w =>
    {| state := state w; picker_value := picker_value w;
       requests := requests w; console := console w ++ [e];
       Date_now := Date_now w; now_calls := now_calls w;
       Math_random := Math_random w; random_calls := random_calls w |}).

(** [Date.now() + Math.random()]: one reading of the clock, one draw. *)
Definition fresh_id : M float := fun w =>
  (Returned (Date_now w (now_calls w) + Math_random w (random_calls w))%float,
   {| state := state w; picker_value := picker_value w;
      requests := requests w; console := console w;
      Date_now := Date_now w; now_calls := S (now_calls w);
      Math_random := Math_random w; random_calls := S (random_calls w) |}).

(** [await fetch(url, init)]: the request goes out, then the promise
    settles as the network decides. *)
Definition fetch (rq : Request) (net : FetchOutcome) : M Response := fun w =>
  let w' := {| state := state w; picker_value := picker_value w;
               requests := requests w ++ [rq]; console := console w;
               Date_now := Date_now w; now_calls := now_calls w;
               Math_random := Math_random w; random_calls := random_calls w |} in
  match net with
  | NetworkError e => (Thrown e, w')
  | Responded r => (Returned r, w')
  end.

(** [await response.json()]. *)
Definition response_json (r : Response) : M jsval :=
  match json r with
  | inl e => throw e
  | inr v => mret v
  end.

(** [v.k]: a [TypeError] when [v] is null or undefined. *)
Definition get_prop (v : jsval) (k : jsstring) : M jsval :=
  if is_nullish v then throw (Error (read_of_nullish_message v k))
  else mret (get_opt v k).

(** [a || b] where [b] is only evaluated when [a] is falsy. *)
Definition or_else (a b : M jsval) : M jsval :=
  x ← a; if truthy x then mret x else b.

(** [s || fallback] on strings. *)
Definition str_or (s fallback : jsstring) : jsstring :=
  match s with [] => fallback | _ => s end.

(* --------------------------------------------------------------------- *)
(** *** Appending to the message log *)

Definition addBotMessage (text : jsstring) (isError : bool) : M unit :=
  i ← fresh_id;
  setMessages (fun prev => prev ++
    [ {| id := i; sender := bot; isError := Some isError;
         content := Text text |} ]).

Definition addBotPreviewMessage (filename dataset_id headRows : jsval) : M unit :=
  i ← fresh_id;
  setMessages (fun prev => prev ++
    [ {| id := i; sender := bot; isError := Some false;
         content := UploadPreview filename dataset_id
                      match headRows with VArr rows => rows | _ => [] end |} ]).

Definition addBotForecastMessage (assistantText results : jsval)
    (isError : bool) : M unit :=
  i ← fresh_id;
  setMessages (fun prev => prev ++
    [ {| id := i; sender := bot; isError := Some isError;
         content := Forecast (js_or assistantText (VStr []))
                             (js_or results VNull) |} ]).

Definition addUserMessage (text : jsstring) : M unit :=
  i ← fresh_id;
  setMessages (fun prev => prev ++
    [ {| id := i; sender := user; isError := None; content := Text text |} ]).

(* --------------------------------------------------------------------- *)
(** *** Rendering helpers *)

Definition cutMarkers : list jsstring :=
  [ u16 "Forecast (head):";
    u16 "Forecast(head):";
    u16 "Forecast head:";
    u16 "Forecast (tail):";
    u16 "Forecast(tail):";
    u16 "Forecast tail:";
    LF ++ u16 "Results:";
    u16 "Results:" ].

(** One turn of the loop over [cutMarkers]. *)
Definition cut_step (t : jsstring) (idx : Z) (m : jsstring) : Z :=
  let i := indexOf t m in
  if i =? -1 then idx
  else if idx =? -1 then i else Z.min idx i.

Definition cleanAssistantText (text : jsval) : jsstring :=
  if negb (truthy text) then []
  else
    let t := to_String text in
    let idx := fold_left (cut_step t) cutMarkers (-1) in
    let t := if idx =? -1 then t else slice0 t idx in
    let t := trim t in
    match t with
    | [] => u16 "Forecast completed."
    | _ => t
    end.

(** What [DataTable] puts on the page: an optional title, the header
    cells and the text of every body cell. *)
Record Table := mkTable {
  table_title : option jsstring;
  columns : list jsstring;
  body_rows : list (list jsstring)
}.

(** [colSet.add(k)]: a [Set] keeps insertion order and ignores a key it
    already holds. *)
Definition Set_add (s : list jsstring) (k : jsstring) : list jsstring :=
  if decide (k ∈ s) then s else s ++ [k].

(** [r?.[c] === null || r?.[c] === undefined ? '' : String(r[c])]: the
    key [c] is computed, so the read goes through the prototype chain. *)
Definition cell_text (r : jsval) (c : jsstring) : jsstring :=
  match get_member r c with
  | Own v => if is_nullish v then [] else to_String v
  | Inherited b => builtin_to_String b
  end.

Definition DataTable (rows : jsval) (title : option jsstring) : option Table :=
  match rows with
  | VArr ((_ :: _) as rs) =>
      let colSet :=
        fold_left (fun s r => fold_left Set_add (Object_keys (js_or r (VObj []))) s)
                  rs [] in
      Some {| table_title := match title with
                             | Some ((_ :: _) as t) => Some t
                             | _ => None
                             end;
              columns := colSet;
              body_rows := List.map (fun r => List.map (cell_text r) colSet) rs |}
  | _ => None
  end.

(** The header cells and the body rows that end up on the page. *)
Definition rendered_columns (t : option Table) : list jsstring :=
  match t with Some t => columns t | None => [] end.

Definition rendered_rows (t : option Table) : list (list jsstring) :=
  match t with Some t => body_rows t | None => [] end.

(* --------------------------------------------------------------------- *)
(** *** The handlers *)

Definition DQUOTE : jsstring := [34%N].

Definition upload_hint : jsstring :=
  u16 "Now type a message like " ++ DQUOTE ++ u16 "hi" ++ DQUOTE ++
  u16 " to get the plan and proposed ds/y, then reply " ++
  DQUOTE ++ u16 "confirm" ++ DQUOTE ++ u16 ".".

(** [files] is [e.target.files]; [net] is what the one request of this
    run meets. *)
Definition handleFileUpload (files : list File) (net : FetchOutcome) : M unit :=
  match files with
  | [] => mret tt
  | file :: _ =>
      setUploadError [];;
      setChatError [];;
      setIsLoading true;;
      try_catch_finally
        (response ← fetch {| url := u16 "/upload"; method := u16 "POST";
                             headers := [];
                             body := FormData [(u16 "file", file)] |} net;
         if negb (response_ok response) then
           throw (Error (u16 "Upload failed: " ++ dec (status response)))
         else
           data ← response_json response;
           ok ← get_prop data (u16 "ok");
           if negb (truthy ok) then
             msg ← or_else (get_prop data (u16 "error"))
                           (mret (VStr (u16 "Upload failed")));
             throw (Error (to_String msg))
           else
             dataset_id ← get_prop data (u16 "dataset_id");
             setDatasetId dataset_id;;
             filename ← or_else (get_prop data (u16 "filename"))
                                (mret (VStr (file_name file)));
             setFileName filename;;
             filename ← or_else (get_prop data (u16 "filename"))
                                (mret (VStr (file_name file)));
             dataset_id ← get_prop data (u16 "dataset_id");
             headRows ← or_else (preview ← get_prop data (u16 "preview");
                                 mret (get_opt preview (u16 "head")))
                                (mret (VArr []));
             addBotPreviewMessage filename dataset_id headRows;;
             addBotMessage upload_hint false)
        (fun err =>
           console_error err;;
           let msg := str_or (exn_message err) (u16 "Failed to upload file.") in
           setUploadError msg;;
           addBotMessage (u16 "Upload error: " ++ msg) true)
        (setIsLoading false;;
         set_picker_value [])
  end.

(** [net] is what the request meets, if this run issues one.
    [e.preventDefault()] touches nothing that is modelled. *)
Definition handleSend (net : FetchOutcome) : M unit :=
  setChatError [];;
  input ← reads (fun w => input (state w));
  datasetId ← reads (fun w => datasetId (state w));
  match trim input with
  | [] => mret tt
  | _ :: _ =>
      if negb (truthy datasetId) then
        addBotMessage (u16 "Please upload a CSV file first (above).") true
      else
        let text := trim input in
        addUserMessage text;;
        setInput [];;
        setIsLoading true;;
        try_catch_finally
          (response ← fetch {| url := u16 "/chat"; method := u16 "POST";
                               headers := [(u16 "Content-Type", u16 "application/json")];
                               body := JSON_stringify
                                 (VObj [(u16 "dataset_id", datasetId);
                                        (u16 "message", VStr text);
                                        (u16 "show_code", VBool false)]) |} net;
           if negb (response_ok response) then
             throw (Error (u16 "Chat request failed: " ++ dec (status response)))
           else
             data ← response_json response;
             ok ← get_prop data (u16 "ok");
             if negb (truthy ok) then
               msg ← or_else (get_prop data (u16 "error"))
                             (mret (VStr (u16 "Chat failed")));
               throw (Error (to_String msg))
             else
               assistantText ←
                 or_else (get_prop data (u16 "assistant_message"))
                   (or_else (get_prop data (u16 "reply"))
                      (or_else (get_prop data (u16 "message"))
                         (mret (VStr []))));
               results ← or_else (get_prop data (u16 "results")) (mret VNull);
               hasForecastTables ←
                 (if truthy results then
                    head ← get_prop results (u16 "forecast_head");
                    if isArray head then mret true
                    else
                      tail ← get_prop results (u16 "forecast_tail");
                      mret (isArray tail)
                  else mret false);
               if hasForecastTables : bool then
                 error ← get_prop data (u16 "error");
                 addBotForecastMessage assistantText results (truthy error)
               else
                 let botMessageText := assistantText in
                 botMessageText ←
                   (if truthy results then
                      mret (VStr (to_String botMessageText ++ LF ++ LF ++
                                  u16 "Results:" ++ LF ++ JSON_stringify_2 results))
                    else mret botMessageText);
                 error ← get_prop data (u16 "error");
                 botMessageText ←
                   (if truthy error then
                      error ← get_prop data (u16 "error");
                      mret (VStr (to_String botMessageText ++ LF ++ LF ++
                                  u16 "Error:" ++ LF ++ to_String error))
                    else mret botMessageText);
                 botMessageText ←
                   match botMessageText with
                   | VStr s =>
                       match trim s with
                       | [] => mret (JSON_stringify_2 data)
                       | _ :: _ => mret s
                       end
                   | _ => throw (Error (not_a_function_message (u16 "botMessageText.trim")))
                   end;
                 error ← get_prop data (u16 "error");
                 addBotMessage botMessageText (truthy error))
          (fun error =>
             console_error error;;
             let msg := str_or (exn_message error)
                          (u16 "Sorry, something went wrong. Please try again.") in
             setChatError msg;;
             addBotMessage (u16 "Error: " ++ msg) true)
          (setIsLoading false)
  end.

(* --------------------------------------------------------------------- *)
(** *** A session: the user's actions one after another *)

Inductive Event :=
  | Type_input (value : jsstring)                     (* onChange of the text field *)
  | Pick_file (files : list File) (net : FetchOutcome) (* onChange of the file input *)
  | Submit (net : FetchOutcome).                       (* onSubmit of the form *)

Definition handle (ev : Event) : M unit :=
  match ev with
  | Type_input v => setInput v
  | Pick_file files net => handleFileUpload files net
  | Submit net => handleSend net
  end.

Definition run (evs : list Event) (w : World) : World :=
  fold_left (fun w ev => exec (handle ev) w) evs w.

End Component.

(* ===================================================================== *)
(** ** A reference host *)
(* ===================================================================== *)

(** JSON integers, which a double holds exactly and prints in decimal
    below [2^53], and an engine that serialises as ECMAScript lays down
    and words its [TypeError]s as V8 does.  The examples run on it. *)
Module Reference.

Definition Z_to_string (z : Z) : jsstring :=
  if z <? 0 then u16 "-" ++ dec (Z.to_N (- z)) else dec (Z.to_N z).

(** The string-keyed members of the prototypes of a recent V8, each a
    function named after its key unless listed apart. *)
Definition methods (names : list string) : list (jsstring * builtin) :=
  List.map (fun name => (u16 name, BuiltinFunction (u16 name))) names.

Definition Object_prototype : list (jsstring * builtin) :=
  (u16 "constructor", BuiltinFunction (u16 "Object")) ::
  methods [ "__defineGetter__"; "__defineSetter__"; "hasOwnProperty";
            "__lookupGetter__"; "__lookupSetter__"; "isPrototypeOf";
            "propertyIsEnumerable"; "toString"; "valueOf";
            "toLocaleString" ]%string.

Definition Array_prototype : list (jsstring * builtin) :=
  (u16 "constructor", BuiltinFunction (u16 "Array")) ::
  methods [ "at"; "concat"; "copyWithin"; "fill"; "find"; "findIndex";
            "findLast"; "findLastIndex"; "lastIndexOf"; "pop"; "push";
            "reverse"; "shift"; "unshift"; "slice"; "sort"; "splice";
            "includes"; "indexOf"; "join"; "keys"; "entries"; "values";
            "forEach"; "filter"; "flat"; "flatMap"; "map"; "every"; "some";
            "reduce"; "reduceRight"; "toLocaleString"; "toString";
            "toReversed"; "toSorted"; "toSpliced"; "with" ]%string.

Definition String_prototype : list (jsstring * builtin) :=
  (u16 "constructor", BuiltinFunction (u16 "String")) ::
  (u16 "trimLeft", BuiltinFunction (u16 "trimStart")) ::
  (u16 "trimRight", BuiltinFunction (u16 "trimEnd")) ::
  methods [ "anchor"; "at"; "big"; "blink"; "bold"; "charAt"; "charCodeAt";
            "codePointAt"; "concat"; "endsWith"; "fontcolor"; "fontsize";
            "fixed"; "includes"; "indexOf"; "isWellFormed"; "italics";
            "lastIndexOf"; "link"; "localeCompare"; "match"; "matchAll";
            "normalize"; "padEnd"; "padStart"; "repeat"; "replace";
            "replaceAll"; "search"; "slice"; "small"; "split"; "strike";
            "sub"; "substr"; "substring"; "sup"; "startsWith"; "toString";
            "toWellFormed"; "trim"; "trimStart"; "trimEnd";
            "toLocaleLowerCase"; "toLocaleUpperCase"; "toLowerCase";
            "toUpperCase"; "valueOf" ]%string.

Definition Number_prototype : list (jsstring * builtin) :=
  (u16 "constructor", BuiltinFunction (u16 "Number")) ::
  methods [ "toExponential"; "toFixed"; "toPrecision"; "toString";
            "valueOf"; "toLocaleString" ]%string.

Definition Boolean_prototype : list (jsstring * builtin) :=
  (u16 "constructor", BuiltinFunction (u16 "Boolean")) ::
  methods [ "toString"; "valueOf" ]%string.

Definition own_members (r : receiver) : list (jsstring * builtin) :=
  match r with
  | of_Object => []
  | of_Array => Array_prototype
  | of_String => String_prototype
  | of_Number => Number_prototype
  | of_Boolean => Boolean_prototype
  end.

Fixpoint member (k : jsstring) (table : list (jsstring * builtin)) : option builtin :=
  match table with
  | [] => None
  | (k', b) :: table' => if decide (k = k') then Some b else member k table'
  end.

(** A prototype's own member shadows the one of [Object.prototype],
    where every chain ends; [__proto__] is the accessor of
    [Object.prototype] and answers the receiver's prototype. *)
Definition V8_inherited (r : receiver) (k : jsstring) : option builtin :=
  match member k (own_members r) with
  | Some b => Some b
  | None =>
      if decide (k = u16 "__proto__") then Some (Prototype r)
      else member k Object_prototype
  end.

Definition V8_function_to_string (name : jsstring) : jsstring :=
  u16 "function " ++ name ++ u16 "() { [native code] }".

#[export] Instance IntNumber : JSNumber :=
  {| number := Z;
     number_truthy := fun z => negb (z =? 0);
     number_to_string := Z_to_string;
     number_of_nat := Z.of_nat;
     inherited := V8_inherited;
     function_to_string := V8_function_to_string |}.

Section Serialise.
Context {Num : JSNumber}.

Definition hex_digit (d : N) : N := (if d <? 10 then 48 + d else 87 + d)%N.

Definition escape_u (c : N) : jsstring :=
  u16 "\u" ++ [hex_digit (c / 4096 mod 16); hex_digit (c / 256 mod 16);
               hex_digit (c / 16 mod 16); hex_digit (c mod 16)]%N.

Definition is_high_surrogate (c : N) : bool := ((55296 <=? c) && (c <=? 56319))%N.
Definition is_low_surrogate (c : N) : bool := ((56320 <=? c) && (c <=? 57343))%N.

Definition quote_unit (c : N) : jsstring :=
  if (c =? 8)%N then u16 "\b"
  else if (c =? 9)%N then u16 "\t"
  else if (c =? 10)%N then u16 "\n"
  else if (c =? 12)%N then u16 "\f"
  else if (c =? 13)%N then u16 "\r"
  else if (c =? 34)%N then u16 "\" ++ DQUOTE
  else if (c =? 92)%N then u16 "\\"
  else if (c <? 32)%N then escape_u c
  else [c].

Fixpoint quote_units (s : jsstring) : jsstring :=
  match s with
  | [] => []
  | c :: s' =>
      if is_high_surrogate c then
        match s' with
        | d :: s'' =>
            if is_low_surrogate d then c :: d :: quote_units s''
            else escape_u c ++ quote_units s'
        | [] => escape_u c
        end
      else if is_low_surrogate c then escape_u c ++ quote_units s'
      else quote_unit c ++ quote_units s'
  end.

Definition QuoteJSONString (s : jsstring) : jsstring :=
  DQUOTE ++ quote_units s ++ DQUOTE.

Fixpoint join_with (sep : jsstring) (parts : list jsstring) : jsstring :=
  match parts with
  | [] => []
  | [p] => p
  | p :: parts' => p ++ sep ++ join_with sep parts'
  end.

Definition gap : jsstring := u16 "  ".

(** [SerializeJSONProperty] with a two-space gap; [None] is [undefined]. *)
Fixpoint serialize (indent : jsstring) (v : jsval) : option jsstring :=
  match v with
  | VUndefined => None
  | VNull => Some (u16 "null")
  | VBool true => Some (u16 "true")
  | VBool false => Some (u16 "false")
  | VNum n => Some (number_to_string n)
  | VStr s => Some (QuoteJSONString s)
  | VArr items =>
      let inner := indent ++ gap in
      let parts :=
        (fix go (l : list jsval) : list jsstring :=
           match l with
           | [] => []
           | x :: l' => default (u16 "null") (serialize inner x) :: go l'
           end) items in
      match parts with
      | [] => Some (u16 "[]")
      | _ :: _ =>
          Some (u16 "[" ++ LF ++ inner ++ join_with (u16 "," ++ LF ++ inner) parts
                ++ LF ++ indent ++ u16 "]")
      end
  | VObj props =>
      let inner := indent ++ gap in
      let parts :=
        (fix go (l : list (jsstring * jsval)) : list jsstring :=
           match l with
           | [] => []
           | (k, x) :: l' =>
               match serialize inner x with
               | Some sx => (QuoteJSONString k ++ u16 ": " ++ sx) :: go l'
               | None => go l'
               end
           end) props in
      match parts with
      | [] => Some (u16 "{}")
      | _ :: _ =>
          Some (u16 "{" ++ LF ++ inner ++ join_with (u16 "," ++ LF ++ inner) parts
                ++ LF ++ indent ++ u16 "}")
      end
  end.

#[export] Instance V8 : Engine :=
  {| JSON_stringify_2 := fun v => default (u16 "undefined") (serialize [] v);
     read_of_nullish_message := fun v k =>
       u16 "Cannot read properties of " ++ to_String v ++
       u16 " (reading '" ++ k ++ u16 "')";
     not_a_function_message := fun callee => callee ++ u16 " is not a function" |}.

End Serialise.

(** A world for the examples: the page as first rendered, a file chosen
    in the picker, a clock stuck in one millisecond and draws that
    differ. *)
Definition sample_clock (n : nat) : float := 1700000000000%float.

Definition sample_draws (n : nat) : float :=
  match n with
  | O => 0x1p-2%float
  | 1%nat => 0x1p-1%float
  | 2%nat => 0x1.8p-1%float
  | _ => 0x1p-3%float
  end.

Definition sample_world : World :=
  {| state := initial_state;
     picker_value := u16 "C:\fakepath\x.csv";
     requests := [];
     console := [];
     Date_now := sample_clock; now_calls := 0;
     Math_random := sample_draws; random_calls := 0 |}.

Definition field (k : string) (v : jsval) : jsstring * jsval := (u16 k, v).
Arguments field k%_string v.

Definition str (s : string) : jsval := VStr (u16 s).
Arguments str s%_string.

Definition int (z : Z) : jsval := VNum (Num := IntNumber) z.

Definition ok_response (data : jsval) : FetchOutcome :=
  Responded {| status := 200; json := inr data |}.

(** Bodies the backend may answer with. *)
Definition upload_body : jsval :=
  VObj [ field "ok" (VBool true); field "dataset_id" (str "d1");
         field "filename" (str "x.csv");
         field "preview" (VObj [ field "head" (VArr [ VObj [ field "a" (int 1) ] ]) ]) ].

Definition forecast_body : jsval :=
  VObj [ field "ok" (VBool true);
         field "results"
           (VObj [ field "forecast_head"
                     (VArr [ VObj [ field "ds" (str "2024-01-01");
                                    field "yhat" (int 12) ] ]) ]) ].


Definition plain_body : jsval :=
  VObj [ field "ok" (VBool true); field "reply" (str "Plan ready.") ].


Definition rejected_body : jsval :=
  VObj [ field "ok" (VBool false); field "error" (str "not a CSV") ].

Definition no_id_body : jsval :=
  VObj [ field "ok" (VBool true); field "filename" (str "x.csv");
         field "preview" (VObj [ field "head" (VArr [ VObj [ field "a" (int 1) ] ]) ]) ].

Definition summary_results : jsval :=
  VObj [ field "training_rows" (int 0);
         field "config_used"
           (VObj [ field "ds_col" (str "ds"); field "y_col" (str "y");
                   field "periods" (int 0);
                   field "regressors" (VArr [ str "temp"; str "promo" ]) ]) ].

Definition server_error : FetchOutcome :=
  Responded {| status := 500; json := inl (Error (u16 "Unexpected token <")) |}.

(** Draws that differ by less than the clock's resolution as a double. *)
Definition close_draws (n : nat) : float :=
  match n with
  | O => 0x1p-2%float
  | _ => 0x1.000001p-2%float
  end.

Definition busy_world : World :=
  {| state := initial_state;
     picker_value := u16 "C:\fakepath\x.csv";
     requests := [];
     console := [];
     Date_now := sample_clock; now_calls := 0;
     Math_random := close_draws; random_calls := 0 |}.

(** The page after a successful upload, with text typed in. *)
Definition ready_world : World :=
  exec (setInput (u16 " forecast 7 days "))
    (exec (handleFileUpload (Eng := V8) [mkFile (u16 "x.csv")] (ok_response upload_body))
       sample_world).

End Reference.

(* ===================================================================== *)
(** ** Specification vocabulary *)
(* ===================================================================== *)

(** A cut marker occurs in [t] at position [p]. *)
Definition marker_at (t : jsstring) (p : nat) : Prop :=
  exists m, m ∈ cutMarkers /\ occurs_at m t p.

Definition marker_atb (t : jsstring) (p : nat) : bool :=
  existsb (fun m => starts_with m (drop p t)) cutMarkers && bool_decide (p <= length t)%nat.

(** The keys of a row as the table sees them: a row that is null or
    undefined has none. *)
Definition row_keys {Num : JSNumber} (r : jsval) : list jsstring :=
  if is_nullish r then [] else Object_keys r.

(** The property names the component reads by name, in the handlers and
    in [ForecastSummary]. *)
Definition field_names : list jsstring :=
  List.map u16
    [ "ok"; "error"; "dataset_id"; "filename"; "preview"; "head";
      "assistant_message"; "reply"; "message"; "results";
      "forecast_head"; "forecast_tail"; "training_rows"; "trainingRows";
      "input_rows"; "inputRows"; "config_used"; "configUsed"; "ds_col";
      "y_col"; "freq"; "periods"; "regressors" ]%string.

(** First-seen order: keep the head, and of the rest what is not the head. *)
Fixpoint first_seen (l : list jsstring) : list jsstring :=
  match l with
  | [] => []
  | x :: l' => x :: filter (fun y => y <> x) (first_seen l')
  end.

Section Vocabulary.
Context {Num : JSNumber} {Eng : Engine}.

Definition is_string (v : jsval) : bool :=
  match v with VStr _ => true | _ => false end.

(** The reply text of a response body: [assistant_message], then
    [reply], then [message], else the empty string. *)
Definition assistant_text (data : jsval) : jsval :=
  js_or (get_opt data (u16 "assistant_message"))
    (js_or (get_opt data (u16 "reply"))
       (js_or (get_opt data (u16 "message")) (VStr []))).

(** The reply fields as the chat endpoint documents them: each of
    [assistant_message], [reply] and [message] is a string when present. *)
Definition string_or_absent (v : jsval) : bool :=
  match v with
  | VStr _ | VUndefined | VNull => true
  | _ => false
  end.

Definition reply_as_documented (data : jsval) : bool :=
  string_or_absent (get_opt data (u16 "assistant_message"))
  && string_or_absent (get_opt data (u16 "reply"))
  && string_or_absent (get_opt data (u16 "message")).

(** The body carries [results] with a [forecast_head] or a
    [forecast_tail] array. *)
Definition has_forecast_tables (data : jsval) : bool :=
  let results := get_opt data (u16 "results") in
  isArray (get_opt results (u16 "forecast_head"))
  || isArray (get_opt results (u16 "forecast_tail")).

(** The plain-text path reaches [botMessageText.trim()] with a reply
    that is not a string: neither [results] nor [error] is truthy, so
    no [+=] has turned the reply text into one. *)
Definition reply_not_trimmable (data : jsval) : bool :=
  negb (truthy (get_opt data (u16 "results")))
  && negb (truthy (get_opt data (u16 "error")))
  && negb (is_string (assistant_text data)).

(** The body of a response accepted as successful: HTTP status 2xx, a
    body that parses, and a truthy [ok] in it. *)
Definition accepted_body (net : FetchOutcome) : option jsval :=
  match net with
  | NetworkError _ => None
  | Responded r =>
      if response_ok r then
        match json r with
        | inl _ => None
        | inr data => if truthy (get_opt data (u16 "ok")) then Some data else None
        end
      else None
  end.

(** The ways a request fails, each with the reason the user is given:
    [http] is the prefix of the status message and [rejected] the text
    used when the body says [ok: false] without an [error]. *)
Inductive request_fails (http rejected : jsstring) : FetchOutcome -> jsstring -> Prop :=
  | fails_network e :
      request_fails http rejected (NetworkError e) (exn_message e)
  | fails_http r :
      response_ok r = false ->
      request_fails http rejected (Responded r) (http ++ dec (status r))
  | fails_parse r e :
      response_ok r = true -> json r = inl e ->
      request_fails http rejected (Responded r) (exn_message e)
  | fails_no_body r data :
      response_ok r = true -> json r = inr data -> is_nullish data = true ->
      request_fails http rejected (Responded r)
        (read_of_nullish_message data (u16 "ok"))
  | fails_rejected r data :
      response_ok r = true -> json r = inr data -> is_nullish data = false ->
      truthy (get_opt data (u16 "ok")) = false ->
      request_fails http rejected (Responded r)
        (to_String (js_or (get_opt data (u16 "error")) (VStr rejected))).

Definition upload_fails : FetchOutcome -> jsstring -> Prop :=
  request_fails (u16 "Upload failed: ") (u16 "Upload failed").

(** The request a chat turn sends. *)
Definition chat_request (dataset_id : jsval) (text : jsstring) : Request :=
  {| url := u16 "/chat"; method := u16 "POST";
     headers := [(u16 "Content-Type", u16 "application/json")];
     body := JSON_stringify (VObj [(u16 "dataset_id", dataset_id);
                                   (u16 "message", VStr text);
                                   (u16 "show_code", VBool false)]) |}.

(** The [dataset_id] of the most recent successful upload among [evs],
    or [d] when there is none. *)
Definition dataset_id_after (d : jsval) (ev : Event) : jsval :=
  match ev with
  | Pick_file (_ :: _) net =>
      match accepted_body net with
      | Some data => get_opt data (u16 "dataset_id")
      | None => d
      end
  | _ => d
  end.

Definition latest_dataset_id (d : jsval) (evs : list Event) : jsval :=
  fold_left dataset_id_after evs d.

(** The [k]-th identifier computed from [w] on: the sum of the [k]-th
    next clock reading and the [k]-th next draw. *)
Definition id_at (w : World) (k : nat) : float :=
  (Date_now w (now_calls w + k) + Math_random w (random_calls w + k))%float.

(** The four ways of appending to the log. *)
Inductive Append :=
  | Bot (text : jsstring) (isError : bool)
  | User (text : jsstring)
  | Preview (filename dataset_id headRows : jsval)
  | ForecastMsg (assistantText results : jsval) (isError : bool).

Definition append (a : Append) : M unit :=
  match a with
  | Bot text e => addBotMessage text e
  | User text => addUserMessage text
  | Preview f d h => addBotPreviewMessage f d h
  | ForecastMsg t r e => addBotForecastMessage t r e
  end.

Definition append_all (ops : list Append) (w : World) : World :=
  fold_left (fun w a => exec (append a) w) ops w.

End Vocabulary.

(* ===================================================================== *)
(** ** The rest of the component: summary, bubbles, controls *)
(* ===================================================================== *)


Section Rendering.
Context {Num : JSNumber} {Eng : Engine}.

#[local] Existing Instance M_ret.
#[local] Existing Instance M_bind.

(** [a ?? b]. *)
Definition nullish_or (a b : jsval) : jsval := if is_nullish a then b else a.

(** [v !== undefined]. *)
Definition is_defined (v : jsval) : bool :=
  match v with VUndefined => false | _ => true end.

(** [items.join(sep)]: null and undefined elements print as nothing. *)
Fixpoint Array_join (sep : jsstring) (items : list jsval) : jsstring :=
  match items with
  | [] => []
  | x :: items' =>
      let sx := if is_nullish x then [] else to_String x in
      match items' with
      | [] => sx
      | _ :: _ => sx ++ sep ++ Array_join sep items'
      end
  end.

(** [list.filter(Boolean)] on a list of objects and nulls. *)
Fixpoint filter_Boolean {A} (l : list (option A)) : list A :=
  match l with
  | [] => []
  | Some x :: l' => x :: filter_Boolean l'
  | None :: l' => filter_Boolean l'
  end.

(** The labels of the summary, in the order of the source. *)
Definition summary_labels : list jsstring :=
  [ u16 "Training rows"; u16 "Input rows"; u16 "ds column"; u16 "y column";
    u16 "Frequency"; u16 "Forecast periods"; u16 "Regressors" ].

(** The facts [ForecastSummary] lays out, each a label [k] and the
    value [v] handed to the page; [None] when it renders nothing. *)
Definition ForecastSummary (results : jsval) : option (list (jsstring * jsval)) :=
  if negb (truthy results) then None
  else
    let trainingRows := nullish_or (get_opt results (u16 "training_rows"))
                                   (get_opt results (u16 "trainingRows")) in
    let inputRows := nullish_or (get_opt results (u16 "input_rows"))
                                (get_opt results (u16 "inputRows")) in
    let cfg := js_or (get_opt results (u16 "config_used"))
                 (js_or (get_opt results (u16 "configUsed")) VNull) in
    let items := filter_Boolean
      [ if is_defined trainingRows then Some (u16 "Training rows", trainingRows) else None;
        if is_defined inputRows then Some (u16 "Input rows", inputRows) else None;
        if truthy (get_opt cfg (u16 "ds_col"))
        then Some (u16 "ds column", get_opt cfg (u16 "ds_col")) else None;
        if truthy (get_opt cfg (u16 "y_col"))
        then Some (u16 "y column", get_opt cfg (u16 "y_col")) else None;
        if truthy (get_opt cfg (u16 "freq"))
        then Some (u16 "Frequency", get_opt cfg (u16 "freq")) else None;
        if truthy (get_opt cfg (u16 "periods"))
        then Some (u16 "Forecast periods", get_opt cfg (u16 "periods")) else None;
        match get_opt cfg (u16 "regressors") with
        | VArr regressors =>
            Some (u16 "Regressors",
                  VStr (match regressors with
                        | [] => u16 "None"
                        | _ :: _ => Array_join (u16 ", ") regressors
                        end))
        | _ => None
        end ] in
    match items with
    | [] => None
    | _ :: _ => Some items
    end.






Definition input_disabled (s : State) : bool :=
  isLoading s || negb (truthy (datasetId s)).

Definition send_disabled (s : State) : bool :=
  isLoading s || negb (truthy (datasetId s))
  || match trim (input s) with [] => true | _ :: _ => false end.

(** The line under the file picker. *)
Definition status_line (s : State) : jsstring :=
  if truthy (datasetId s)
  then u16 "Loaded: " ++ to_String (fileName s) ++ u16 " (dataset_id set)"
  else u16 "No file uploaded yet".

(** The request an upload sends. *)
Definition upload_request (file : File) : Request :=
  {| url := u16 "/upload"; method := u16 "POST"; headers := [];
     body := FormData [(u16 "file", file)] |}.

Definition chat_fails : FetchOutcome -> jsstring -> Prop :=
  request_fails (u16 "Chat request failed: ") (u16 "Chat failed").


(** [handleSend] as the revision before forecast rendering has it:
    every accepted response becomes a plain message. *)
Definition handleSend_plain (net : FetchOutcome) : M unit :=
  setChatError [];;
  input ← reads (fun w => input (state w));
  datasetId ← reads (fun w => datasetId (state w));
  match trim input with
  | [] => mret tt
  | _ :: _ =>
      if negb (truthy datasetId) then
        addBotMessage (u16 "Please upload a CSV file first (above).") true
      else
        let text := trim input in
        addUserMessage text;;
        setInput [];;
        setIsLoading true;;
        try_catch_finally
          (response ← fetch {| url := u16 "/chat"; method := u16 "POST";
                               headers := [(u16 "Content-Type", u16 "application/json")];
                               body := JSON_stringify
                                 (VObj [(u16 "dataset_id", datasetId);
                                        (u16 "message", VStr text);
                                        (u16 "show_code", VBool false)]) |} net;
           if negb (response_ok response) then
             throw (Error (u16 "Chat request failed: " ++ dec (status response)))
           else
             data ← response_json response;
             ok ← get_prop data (u16 "ok");
             if negb (truthy ok) then
               msg ← or_else (get_prop data (u16 "error"))
                             (mret (VStr (u16 "Chat failed")));
               throw (Error (to_String msg))
             else
               botMessageText ←
                 or_else (get_prop data (u16 "assistant_message"))
                   (or_else (get_prop data (u16 "reply"))
                      (or_else (get_prop data (u16 "message"))
                         (mret (VStr []))));
               results ← get_prop data (u16 "results");
               botMessageText ←
                 (if truthy results then
                    results ← get_prop data (u16 "results");
                    mret (VStr (to_String botMessageText ++ LF ++ LF ++
                                u16 "Results:" ++ LF ++ JSON_stringify_2 results))
                  else mret botMessageText);
               error ← get_prop data (u16 "error");
               botMessageText ←
                 (if truthy error then
                    error ← get_prop data (u16 "error");
                    mret (VStr (to_String botMessageText ++ LF ++ LF ++
                                u16 "Error:" ++ LF ++ to_String error))
                  else mret botMessageText);
               botMessageText ←
                 match botMessageText with
                 | VStr s =>
                     match trim s with
                     | [] => mret (JSON_stringify_2 data)
                     | _ :: _ => mret s
                     end
                 | _ => throw (Error (not_a_function_message (u16 "botMessageText.trim")))
                 end;
               error ← get_prop data (u16 "error");
               addBotMessage botMessageText (truthy error))
          (fun error =>
             console_error error;;
             let msg := str_or (exn_message error)
                          (u16 "Sorry, something went wrong. Please try again.") in
             setChatError msg;;
             addBotMessage (u16 "Error: " ++ msg) true)
          (setIsLoading false)
  end.

End Rendering.

(* ===================================================================== *)
(** ** Strings: searching and cutting *)
(* ===================================================================== *)

Section StringFacts.

Lemma starts_with_spec (m t : jsstring) :
  starts_with m t = true <-> exists post, t = m ++ post.
Proof.
  revert t. induction m as [|a m IH]; intros t; simpl.
  - split; eauto.
  - destruct t as [|b t].
    + split; [discriminate | intros [post H]; discriminate].
    + rewrite andb_true_iff, N.eqb_eq, IH. split.
      * intros [-> [post ->]]. eauto.
      * intros [post H]. injection H as -> ->. eauto.
Qed.

Lemma occurs_at_0 (m t : jsstring) :
  occurs_at m t 0 <-> starts_with m t = true.
Proof.
  rewrite starts_with_spec. unfold occurs_at. split.
  - intros (pre & post & -> & Hl). destruct pre; [|discriminate]. eauto.
  - intros [post ->]. exists [], post. auto.
Qed.

Lemma occurs_at_S (m : jsstring) (c : N) (t : jsstring) (p : nat) :
  occurs_at m (c :: t) (S p) <-> occurs_at m t p.
Proof.
  unfold occurs_at. split.
  - intros (pre & post & H & Hl). destruct pre as [|c' pre]; [discriminate|].
    injection H as -> ->. injection Hl as <-. eauto.
  - intros (pre & post & -> & <-). exists (c :: pre), post. auto.
Qed.

Lemma occurs_at_nil (m : jsstring) (p : nat) :
  occurs_at m [] p -> p = 0%nat /\ m = [].
Proof.
  intros (pre & post & H & Hl). symmetry in H.
  apply app_eq_nil in H as [-> H]. apply app_eq_nil in H as [-> _]. auto.
Qed.

Lemma occurs_at_drop (m t : jsstring) (p : nat) :
  occurs_at m t p <-> starts_with m (drop p t) = true /\ (p <= length t)%nat.
Proof.
  revert t. induction p as [|p IH]; intros t.
  - rewrite occurs_at_0, drop_0. split; [intros; split; [done | lia] | tauto].
  - destruct t as [|c t].
    + split.
      * intros H. apply occurs_at_nil in H as [? _]. discriminate.
      * simpl. lia.
    + rewrite occurs_at_S, IH. simpl. split; intros [? ?]; split; auto; lia.
Qed.

(** [indexOf] finds the least occurrence, and answers [-1] exactly when
    there is none. *)
Lemma indexOf_from_spec (m t : jsstring) (pos : Z) :
  0 <= pos ->
  (indexOf_from t m pos = -1 /\ forall p, ~ occurs_at m t p) \/
  (exists p : nat, indexOf_from t m pos = pos + Z.of_nat p /\
                   occurs_at m t p /\ forall q, (q < p)%nat -> ~ occurs_at m t q).
Proof.
  revert pos. induction t as [|c t IH]; intros pos Hpos; simpl.
  - destruct (starts_with m []) eqn:E.
    + right. exists 0%nat. rewrite Z.add_0_r. split; [done|]. split.
      * by apply occurs_at_0.
      * intros q Hq. lia.
    + left. split; [done|]. intros p Hp.
      pose proof (occurs_at_nil _ _ Hp) as [-> ->]. discriminate.
  - destruct (starts_with m (c :: t)) eqn:E.
    + right. exists 0%nat. rewrite Z.add_0_r. split; [done|]. split.
      * by apply occurs_at_0.
      * intros q Hq. lia.
    + destruct (IH (pos + 1)) as [[H1 H2] | (p & H1 & H2 & H3)]; [lia | |].
      * left. split; [done|]. intros [|p] Hp.
        -- apply occurs_at_0 in Hp. congruence.
        -- apply occurs_at_S in Hp. by apply (H2 p).
      * right. exists (S p). split; [rewrite H1; lia|]. split.
        -- by apply occurs_at_S.
        -- intros [|q] Hq Hocc.
           ++ apply occurs_at_0 in Hocc. congruence.
           ++ apply occurs_at_S in Hocc. apply (H3 q); [lia | done].
Qed.

Lemma indexOf_spec (m t : jsstring) :
  (indexOf t m = -1 /\ forall p, ~ occurs_at m t p) \/
  (exists p : nat, indexOf t m = Z.of_nat p /\
                   occurs_at m t p /\ forall q, (q < p)%nat -> ~ occurs_at m t q).
Proof.
  unfold indexOf. destruct (indexOf_from_spec m t 0) as [H | (p & H1 & H2)]; [lia | auto |].
  right. exists p. rewrite H1. split; [lia | done].
Qed.

(** The loop over the markers keeps the least index found so far. *)
Lemma cut_loop_spec (t : jsstring) (ms : list jsstring) (idx : Z) :
  -1 <= idx ->
  (fold_left (cut_step t) ms idx = -1 /\ idx = -1 /\
   forall m p, m ∈ ms -> ~ occurs_at m t p) \/
  (exists p : nat, fold_left (cut_step t) ms idx = Z.of_nat p /\
     (idx = Z.of_nat p \/ exists m, m ∈ ms /\ occurs_at m t p) /\
     (idx = -1 \/ Z.of_nat p <= idx) /\
     forall m q, m ∈ ms -> (q < p)%nat -> ~ occurs_at m t q).
Proof.
  revert idx. induction ms as [|m ms IH]; intros idx Hidx; simpl.
  - destruct (decide (idx = -1)) as [->|Hne].
    + left. split; [done|]. split; [done|]. intros m p Hm. by apply not_elem_of_nil in Hm.
    + right. exists (Z.to_nat idx). split; [lia|]. split; [left; lia|]. split; [lia|].
      intros m q Hm. by apply not_elem_of_nil in Hm.
  - destruct (indexOf_spec m t) as [[Hi Hno] | (pi & Hi & Hocc & Hleast)].
    + assert (cut_step t idx m = idx) as -> by (unfold cut_step; by rewrite Hi).
      destruct (IH idx Hidx) as [(Hr & Hidx' & Hnone) | (p & Hr & Hsrc & Hle & Hleast)].
      * left. split; [done|]. split; [done|]. intros m' p Hm'.
        apply elem_of_cons in Hm' as [->|Hm']; [apply Hno | by apply Hnone].
      * right. exists p. split; [done|]. split.
        { destruct Hsrc as [?|(m' & ? & ?)]; [by left|]. right. exists m'. split; [by right | done]. }
        split; [done|]. intros m' q Hm' Hq.
        apply elem_of_cons in Hm' as [->|Hm']; [apply Hno | by apply Hleast].
    + set (idx' := cut_step t idx m).
      assert (0 <= idx' /\ idx' <= Z.of_nat pi /\ (idx = -1 \/ idx' <= idx) /\
              (idx' = Z.of_nat pi \/ idx' = idx)) as (H0 & Hpi & Hle' & Hcase).
      { unfold idx', cut_step. rewrite Hi.
        destruct (Z.of_nat pi =? -1) eqn:E1; [lia|].
        destruct (idx =? -1) eqn:E; lia. }
      destruct (IH idx' ltac:(lia)) as [(Hr & Hidx' & _) | (p & Hr & Hsrc & Hle & Hleast')]; [lia|].
      right. exists p. split; [done|]. split; [|split].
      * destruct Hsrc as [Heq|(m' & ? & ?)].
        -- destruct Hcase as [Hc|Hc].
           ++ right. exists m. split; [by left|].
              assert (p = pi) as -> by lia. done.
           ++ left. lia.
        -- right. exists m'. split; [by right | done].
      * destruct Hle as [?|?]; [lia|]. destruct Hle' as [?|?]; [by left | right; lia].
      * intros m' q Hm' Hq.
        apply elem_of_cons in Hm' as [->|Hm']; [|by apply Hleast'].
        apply Hleast. destruct Hle as [?|?]; lia.
Qed.

Lemma marker_atb_spec (t : jsstring) (p : nat) :
  marker_atb t p = true <-> marker_at t p.
Proof.
  unfold marker_atb, marker_at.
  rewrite andb_true_iff, bool_decide_eq_true, existsb_exists. split.
  - intros [(m & Hm & Hs) Hp]. exists m. split; [by apply list_elem_of_In|].
    by apply occurs_at_drop.
  - intros (m & Hm & Hocc). apply occurs_at_drop in Hocc as [? ?].
    split; [|done]. exists m. split; [by apply list_elem_of_In | done].
Qed.

Lemma no_marker_before (t : jsstring) (p : nat) :
  forallb (fun q => negb (marker_atb t q)) (seq 0 p) = true ->
  forall q, (q < p)%nat -> ~ marker_at t q.
Proof.
  rewrite forallb_forall. intros H q Hq Hm.
  apply marker_atb_spec in Hm. specialize (H q). rewrite Hm in H.
  discriminate H. apply in_seq. lia.
Qed.

End StringFacts.

(* ===================================================================== *)
(** ** Text cleanup *)
(* ===================================================================== *)

Section TextCleanup.
Context {Num : JSNumber}.

Lemma cleanAssistantText_unfold (s : jsstring) :
  s <> [] ->
  cleanAssistantText (VStr s) =
  str_or (trim (if fold_left (cut_step s) cutMarkers (-1) =? -1 then s
                else slice0 s (fold_left (cut_step s) cutMarkers (-1))))
         (u16 "Forecast completed.").
Proof. intros Hs. destruct s; [done | reflexivity]. Qed.

Lemma slice0_of_nat (t : jsstring) (p : nat) : slice0 t (Z.of_nat p) = take p t.
Proof.
  unfold slice0. destruct (Z.ltb_spec (Z.of_nat p) 0); [lia|]. by rewrite Nat2Z.id.
Qed.

(** The position the loop settles on. *)
Lemma cut_index_spec (s : jsstring) :
  (fold_left (cut_step s) cutMarkers (-1) = -1 /\ forall p, ~ marker_at s p) \/
  (exists p : nat, fold_left (cut_step s) cutMarkers (-1) = Z.of_nat p /\
     marker_at s p /\ forall q, (q < p)%nat -> ~ marker_at s q).
Proof.
  destruct (cut_loop_spec s cutMarkers (-1)) as [(Hr & _ & Hnone) | (p & Hr & Hsrc & _ & Hleast)];
    [lia | |].
  - left. split; [done|]. intros p (m & Hm & Hocc). by apply (Hnone m p).
  - right. exists p. split; [done|]. split.
    + destruct Hsrc as [?|?]; [lia | done].
    + intros q Hq (m & Hm & Hocc). by apply (Hleast m q).
Qed.

(** C2 as the code has it: the empty string is returned
    as it is; any other string is cut at the earliest marker, trimmed,
    and replaced by the fallback when nothing is left. *)
Theorem cleanAssistantText_spec :
  (forall s : jsstring, s <> [] ->
     (forall p, marker_at s p -> (forall q, (q < p)%nat -> ~ marker_at s q) ->
        cleanAssistantText (VStr s) =
        str_or (trim (take p s)) (u16 "Forecast completed.")) /\
     ((forall p, ~ marker_at s p) ->
        cleanAssistantText (VStr s) = str_or (trim s) (u16 "Forecast completed."))) /\
  cleanAssistantText (VStr (u16 "Plan ready." ++ LF ++ u16 "Forecast (head): ..."))
    = u16 "Plan ready." /\
  (forall m, m ∈ cutMarkers -> cleanAssistantText (VStr m) = u16 "Forecast completed.") /\
  cleanAssistantText (VStr []) = [].
Proof.
  split; [|split; [|split]].
  - intros s Hs. rewrite (cleanAssistantText_unfold s Hs).
    destruct (cut_index_spec s) as [[Hr Hnone] | (p0 & Hr & Hat & Hleast)]; rewrite Hr.
    + split.
      * intros p Hp _. by destruct (Hnone p).
      * intros _. reflexivity.
    + assert ((Z.of_nat p0 =? -1) = false) as -> by lia.
      rewrite slice0_of_nat. split.
      * intros p Hp Hmin.
        assert (p = p0) as ->; [|done].
        destruct (Nat.lt_trichotomy p p0) as [Hlt | [-> | Hgt]]; [|done|].
        -- by destruct (Hleast p Hlt).
        -- by destruct (Hmin p0 Hgt).
      * intros Hnone. by destruct (Hnone p0).
  - vm_compute. reflexivity.
  - intros m Hm. unfold cutMarkers in Hm.
    repeat (apply elem_of_cons in Hm as [-> | Hm]; [vm_compute; reflexivity |]).
    by apply not_elem_of_nil in Hm.
  - reflexivity.
Qed.

End TextCleanup.

(** C2 as stated fails on the empty string: what is left after cutting
    and trimming is empty, and no fallback is substituted. *)
Lemma cleanAssistantText_empty_no_fallback :
  trim [] = [] /\
  cleanAssistantText (Num := Reference.IntNumber) (VStr []) <> u16 "Forecast completed.".
Proof. split; [reflexivity | vm_compute; discriminate]. Qed.

Lemma cleanAssistantText_spec_witness :
  cleanAssistantText (Num := Reference.IntNumber)
    (VStr (u16 "Summary " ++ LF ++ u16 "Results: 1 Forecast tail: 2"))
  = u16 "Summary".
Proof.
  destruct (cleanAssistantText_spec (Num := Reference.IntNumber)) as [H _].
  destruct (H (u16 "Summary " ++ LF ++ u16 "Results: 1 Forecast tail: 2")) as [Hcut _];
    [discriminate|].
  rewrite (Hcut 8%nat).
  - vm_compute. reflexivity.
  - apply marker_atb_spec. vm_compute. reflexivity.
  - apply no_marker_before. vm_compute. reflexivity.
Defined.

(* ===================================================================== *)
(** ** Row table *)
(* ===================================================================== *)

Section RowTable.
Context {Num : JSNumber}.













(** Under a name that the prototype of [v] does not define, the read
    through the prototype chain is the read of the own properties. *)
Lemma get_member_own (v : jsval) (k : jsstring) :
  (forall r, receiver_of v = Some r -> inherited r k = None) ->
  get_member v k = Own (get_opt v k).
Proof.
  intros H. unfold get_member, get_opt, prototype_chain.
  destruct v as [| |b|n|s|items|props]; simpl in *; try done.
  - by rewrite (H of_Boolean eq_refl).
  - by rewrite (H of_Number eq_refl).
  - rewrite (H of_String eq_refl).
    destruct (decide (k = u16 "length")) as [|_]; [done|].
    destruct (array_index k (length s)) as [i|]; [|done]. by destruct (s !! i).
  - rewrite (H of_Array eq_refl).
    destruct (decide (k = u16 "length")) as [|_]; [done|].
    by destruct (array_index k (length items)).
  - rewrite (H of_Object eq_refl). by destruct (assoc k props).
Qed.



End RowTable.

(** No prototype of the reference host defines a name that the
    component reads by name. *)
Lemma field_names_not_inherited :
  Forall (fun k => forall r, inherited (JSNumber := Reference.IntNumber) r k = None)
         field_names.
Proof.
  apply Forall_forall. intros k Hk r.
  revert k Hk. apply Forall_forall.
  destruct r; apply (bool_decide_unpack _); by vm_compute.
Qed.

(** So in the reference host every read by name is a read of the own
    properties. *)
Corollary field_reads_are_own (v : jsval) (k : jsstring) :
  k ∈ field_names -> get_member (Num := Reference.IntNumber) v k = Own (get_opt v k).
Proof.
  intros Hk. apply get_member_own. intros r _.
  pose proof field_names_not_inherited as H.
  rewrite Forall_forall in H. by apply H.
Qed.


(** C3: in the rows [[{constructor: 'x', a: 1}, {a: 2}]] the second row
    has no [constructor] value, yet its cell in that column is not
    empty: the read [r?.[c]] finds [Object.prototype.constructor] and
    the cell shows that function's text. *)
Theorem DataTable_missing_cell_not_empty :
  let rows :=
    VArr [ VObj [Reference.field "constructor" (Reference.str "x");
                 Reference.field "a" (Reference.int 1)];
           VObj [Reference.field "a" (Reference.int 2)] ] in
  let t := DataTable (Num := Reference.IntNumber) rows None in
  rendered_columns t = [u16 "constructor"; u16 "a"] /\
  rendered_rows t =
    [ [u16 "x"; u16 "1"];
      [u16 "function Object() { [native code] }"; u16 "2"] ] /\
  row_keys (Num := Reference.IntNumber)
    (VObj [Reference.field "a" (Reference.int 2)]) = [u16 "a"].
Proof. by vm_compute. Qed.


(* ===================================================================== *)
(** ** The handlers *)
(* ===================================================================== *)

Lemma truthy_not_nullish {Num : JSNumber} (v : jsval) :
  truthy v = true -> is_nullish v = false.
Proof. by destruct v. Qed.

Lemma get_opt_truthy_not_nullish {Num : JSNumber} (v : jsval) (k : jsstring) :
  truthy (get_opt v k) = true -> is_nullish v = false.
Proof. by destruct v. Qed.

(** Runs a handler as far as its inputs are known. *)
Ltac step :=
  cbv beta iota zeta delta
    [exec handle handleSend handleFileUpload append
     mbind M_bind mret M_ret reads modify throw
     try_catch_finally with_state setMessages setInput setIsLoading setDatasetId
     setFileName setUploadError setChatError set_picker_value console_error
     fresh_id fetch response_json get_prop or_else
     addBotMessage addUserMessage addBotPreviewMessage addBotForecastMessage
     fst snd state picker_value requests console Date_now now_calls
     Math_random random_calls status json exn_message
     messages input isLoading datasetId fileName uploadError chatError negb].

(** Splits on the tests a handler makes on its inputs. *)
Ltac branch :=
  match goal with
  | H : truthy ?v = true |- context [is_nullish ?v] =>
      rewrite (truthy_not_nullish v H)
  | H : truthy ?v = _ |- context [truthy ?v] => rewrite H
  | |- context [if truthy ?v then _ else _] =>
      let E := fresh "E" in destruct (truthy v) eqn:E
  | |- context [if isArray ?v then _ else _] =>
      let E := fresh "E" in destruct (isArray v) eqn:E
  | |- context [match trim ?s with [] => _ | _ :: _ => _ end] =>
      let E := fresh "E" in destruct (trim s) eqn:E
  | |- context [if response_ok ?r then _ else _] =>
      let E := fresh "E" in destruct (response_ok r) eqn:E
  | |- context [if is_nullish ?v then _ else _] =>
      let E := fresh "E" in destruct (is_nullish v) eqn:E
  end.

Ltac crunch :=
  repeat first [ progress step
               | progress cbn [truthy isArray is_nullish]
               | progress unfold js_or
               | branch ].

Ltac finish := rewrite <- ?app_assoc, ?Nat.add_0_r, ?Nat.add_1_r; try reflexivity.

Section Handlers.
Context {Num : JSNumber} {Eng : Engine}.

Lemma accepted_body_inv (net : FetchOutcome) (data : jsval) :
  accepted_body net = Some data ->
  exists st, net = Responded {| status := st; json := inr data |} /\
    response_ok {| status := st; json := inr data |} = true /\
    truthy (get_opt data (u16 "ok")) = true /\ is_nullish data = false.
Proof.
  destruct net as [e|[st [e|d]]]; simpl; try discriminate.
  - by destruct (response_ok _).
  - destruct (response_ok _) eqn:Hok; [|discriminate].
    destruct (truthy (get_opt d (u16 "ok"))) eqn:Ht; [|discriminate].
    intros [= ->]. exists st. repeat split; try done.
    by apply get_opt_truthy_not_nullish in Ht.
Qed.

Lemma isArray_get_opt_truthy (v : jsval) (k : jsstring) :
  isArray (get_opt v k) = true -> truthy v = true.
Proof.
  destruct v as [| |b|n|s|items|props]; simpl; try discriminate; try done.
  repeat case_match; simpl; discriminate.
Qed.

(** A reply shaped as documented yields a string as reply text. *)
Lemma documented_reply_is_string (data : jsval) :
  reply_as_documented data = true -> is_string (assistant_text data) = true.
Proof.
  unfold reply_as_documented, assistant_text, js_or.
  rewrite !andb_true_iff. intros [[H1 H2] H3].
  destruct (get_opt data (u16 "assistant_message")) as [| | | |[|]| |];
    try discriminate H1; try reflexivity;
    destruct (get_opt data (u16 "reply")) as [| | | |[|]| |];
    try discriminate H2; try reflexivity;
    destruct (get_opt data (u16 "message")) as [| | | |[|]| |];
    try discriminate H3; reflexivity.
Qed.

(** So a reply shaped as documented never keeps [trim] from running. *)
Lemma documented_reply_trimmable (data : jsval) :
  reply_as_documented data = true -> reply_not_trimmable data = false.
Proof.
  intros H. unfold reply_not_trimmable.
  rewrite (documented_reply_is_string data H). by rewrite !andb_false_r.
Qed.

(** C4: a blank input sends nothing and appends nothing. *)
Theorem handleSend_blank_input (net : FetchOutcome) (w : World) :
  trim (input (state w)) = [] ->
  requests (exec (handleSend net) w) = requests w /\
  messages (state (exec (handleSend net) w)) = messages (state w).
Proof.
  intros Hblank. destruct w as [[ms inp ld did fn ue ce] pv rq co dn nc mr rc].
  cbn [state input] in Hblank. step. rewrite Hblank. by step.
Qed.

(** C5: with text to send but no dataset, nothing is sent and the log
    gains exactly one error-flagged bot message. *)
Theorem handleSend_without_dataset (net : FetchOutcome) (w : World) :
  trim (input (state w)) <> [] ->
  truthy (datasetId (state w)) = false ->
  requests (exec (handleSend net) w) = requests w /\
  messages (state (exec (handleSend net) w)) =
    messages (state w) ++
    [ {| id := id_at w 0; sender := bot; isError := Some true;
         content := Text (u16 "Please upload a CSV file first (above).") |} ].
Proof.
  intros Htext Hnone. destruct w as [[ms inp ld did fn ue ce] pv rq co dn nc mr rc].
  cbn [state input datasetId] in Htext, Hnone. unfold id_at. step.
  destruct (trim inp) as [|c t] eqn:Ht; [done|]. rewrite Hnone. step.
  by rewrite !Nat.add_0_r.
Qed.

(** C1: an accepted response with forecast tables adds, after the
    user's own message, exactly one message, of kind forecast, whatever
    the reply text is. *)
Theorem handleSend_forecast (w : World) (net : FetchOutcome) (data : jsval) :
  trim (input (state w)) <> [] ->
  truthy (datasetId (state w)) = true ->
  accepted_body net = Some data ->
  has_forecast_tables data = true ->
  messages (state (exec (handleSend net) w)) =
    messages (state w) ++
    [ {| id := id_at w 0; sender := user; isError := None;
         content := Text (trim (input (state w))) |};
      {| id := id_at w 1; sender := bot;
         isError := Some (truthy (get_opt data (u16 "error")));
         content := Forecast (assistant_text data) (get_opt data (u16 "results")) |} ].
Proof.
  intros Htext Hds Hacc Hfc.
  apply accepted_body_inv in Hacc as (st & -> & Hok & Hbody & Hnn).
  destruct w as [[ms inp ld did fn ue ce] pv rq co dn nc mr rc].
  cbn [state input datasetId] in Htext, Hds.
  unfold id_at, has_forecast_tables, assistant_text, js_or in *. step.
  destruct (trim inp) as [|c t] eqn:Ht; [done|]. rewrite Hds. step.
  rewrite Hok. step. rewrite Hnn. step. rewrite Hbody. step.
  assert (truthy (get_opt data (u16 "results")) = true) as Hres.
  { apply orb_true_iff in Hfc as [H|H]; by apply isArray_get_opt_truthy in H. }
  rewrite Hres in *. rewrite (truthy_not_nullish _ Hres).
  crunch; finish; discriminate.
Qed.


(** Every request that is not accepted fails in one of the listed ways,
    and only those do. *)
Lemma request_fails_iff_not_accepted (http rejected : jsstring) (net : FetchOutcome) :
  accepted_body net = None <-> exists reason, request_fails http rejected net reason.
Proof.
  split.
  - destruct net as [e | [st [e | data]]]; simpl; intros H.
    + eexists. constructor.
    + destruct (response_ok _) eqn:Hok; eexists;
        [by eapply fails_parse | by apply fails_http].
    + destruct (response_ok _) eqn:Hok; [|eexists; by apply fails_http].
      destruct (truthy _) eqn:Ht; [discriminate|].
      destruct (is_nullish data) eqn:Hn; eexists;
        [by eapply fails_no_body | by eapply fails_rejected].
  - intros [reason H].
    destruct H as [e | r Hok | r e Hok Hjs | r data Hok Hjs Hnull | r data Hok Hjs Hnn Hrej];
      simpl; rewrite ?Hok, ?Hjs, ?Hrej; try done.
    by destruct data.
Qed.

(** C6: a failed upload records its reason, adds exactly one
    error-flagged bot message that carries it, and leaves [datasetId]
    as it was. *)
Theorem handleFileUpload_failure (w : World) (file : File) (files : list File)
    (net : FetchOutcome) (reason : jsstring) :
  upload_fails net reason ->
  let w' := exec (handleFileUpload (file :: files) net) w in
  let msg := str_or reason (u16 "Failed to upload file.") in
  uploadError (state w') = msg /\
  messages (state w') =
    messages (state w) ++
    [ {| id := id_at w 0; sender := bot; isError := Some true;
         content := Text (u16 "Upload error: " ++ msg) |} ] /\
  datasetId (state w') = datasetId (state w).
Proof.
  intros Hfail.
  destruct w as [[ms inp ld did fn ue ce] pv rq co dn nc mr rc].
  unfold id_at.
  destruct Hfail as [e | [st js] Hok | [st js] e Hok Hjs | [st js] data Hok Hjs Hnull
                    | [st js] data Hok Hjs Hnn Hrej];
    cbn [json status] in *; subst; step;
    rewrite ?Hok; step; rewrite ?Hnull, ?Hnn; step; rewrite ?Hrej; crunch;
    by rewrite !Nat.add_0_r.
Qed.

(** C9: once a file was chosen the handler ends with the loading flag
    cleared and the picker emptied, however the request went. *)
Theorem handleFileUpload_finally (w : World) (file : File) (files : list File)
    (net : FetchOutcome) :
  isLoading (state (exec (handleFileUpload (file :: files) net) w)) = false /\
  picker_value (exec (handleFileUpload (file :: files) net) w) = [].
Proof.
  destruct w as [[ms inp ld did fn ue ce] pv rq co dn nc mr rc].
  destruct net as [e | [st [e | data]]]; crunch; by split.
Qed.

(** What an upload does to [datasetId]. *)
Lemma handleFileUpload_datasetId (w : World) (files : list File) (net : FetchOutcome) :
  datasetId (state (exec (handleFileUpload files net) w)) =
  match files with
  | [] => datasetId (state w)
  | _ :: _ => match accepted_body net with
              | Some data => get_opt data (u16 "dataset_id")
              | None => datasetId (state w)
              end
  end.
Proof.
  destruct w as [[ms inp ld did fn ue ce] pv rq co dn nc mr rc].
  destruct files as [|file files]; [reflexivity|].
  destruct net as [e | [st [e | data]]]; unfold accepted_body; cbn [json];
    crunch; try reflexivity.
  all: destruct data; try discriminate; reflexivity.
Qed.

(** What a chat turn does to [datasetId] and to the network. *)
Lemma handleSend_session (w : World) (net : FetchOutcome) :
  datasetId (state (exec (handleSend net) w)) = datasetId (state w) /\
  (requests (exec (handleSend net) w) = requests w \/
   truthy (datasetId (state w)) = true /\
   requests (exec (handleSend net) w) =
     requests w ++ [chat_request (datasetId (state w)) (trim (input (state w)))]).
Proof.
  destruct w as [[ms inp ld did fn ue ce] pv rq co dn nc mr rc].
  unfold chat_request. step.
  destruct (trim inp) as [|c t] eqn:Ht; [by split; [|left]|].
  destruct (truthy did) eqn:Hd; step; [|by split; [|left]].
  destruct net as [e | [st [e | data]]]; crunch;
    repeat match goal with
      | |- context [match ?v with VStr _ => _ | _ => _ end] => destruct v
      end;
    crunch; by split; [|right].
Qed.

Lemma run_app (pre post : list Event) (w : World) :
  run (pre ++ post) w = run post (run pre w).
Proof. apply fold_left_app. Qed.

Lemma latest_dataset_id_app (d : jsval) (pre post : list Event) :
  latest_dataset_id d (pre ++ post) = latest_dataset_id (latest_dataset_id d pre) post.
Proof. apply fold_left_app. Qed.

Lemma run_datasetId (evs : list Event) (w : World) :
  datasetId (state (run evs w)) = latest_dataset_id (datasetId (state w)) evs.
Proof.
  revert w. induction evs as [|ev evs IH]; intros w; [reflexivity|].
  change (run (ev :: evs) w) with (run evs (exec (handle ev) w)).
  rewrite IH.
  change (latest_dataset_id (datasetId (state w)) (ev :: evs))
    with (latest_dataset_id (dataset_id_after (datasetId (state w)) ev) evs).
  f_equal. destruct ev as [v | files net | net]; simpl handle.
  - by destruct w as [[]].
  - rewrite handleFileUpload_datasetId. by destruct files.
  - apply handleSend_session.
Qed.

(** C7: through any session, [datasetId] is the [dataset_id] of the
    most recent successful upload, each successful upload sets it to
    the [dataset_id] it returned, and a chat request is sent only once
    it is set and carries it. *)
Theorem datasetId_tracks_latest_upload (evs : list Event) (w : World) :
  datasetId (state (run evs w)) = latest_dataset_id (datasetId (state w)) evs /\
  (forall pre file files net data post,
     evs = pre ++ Pick_file (file :: files) net :: post ->
     accepted_body net = Some data ->
     datasetId (state (run (pre ++ [Pick_file (file :: files) net]) w))
       = get_opt data (u16 "dataset_id")) /\
  (forall pre net post,
     evs = pre ++ Submit net :: post ->
     requests (run (pre ++ [Submit net]) w) = requests (run pre w) \/
     exists text,
       truthy (latest_dataset_id (datasetId (state w)) pre) = true /\
       requests (run (pre ++ [Submit net]) w) =
         requests (run pre w) ++
         [chat_request (latest_dataset_id (datasetId (state w)) pre) text]).
Proof.
  split; [apply run_datasetId|]. split.
  - intros pre file files net data post _ Hacc.
    rewrite run_datasetId, latest_dataset_id_app. simpl. by rewrite Hacc.
  - intros pre net post _. rewrite run_app. simpl.
    change (fold_left _ [Submit net] (run pre w))
      with (exec (handleSend net) (run pre w)).
    destruct (handleSend_session (run pre w) net) as [_ [H|[Hset H]]]; [by left|].
    right. eexists. rewrite H. rewrite run_datasetId in Hset |- *. by split.
Qed.

(** Each way of appending adds one message whose identifier is the
    next clock reading plus the next draw. *)
Lemma append_one (a : Append) (w : World) :
  exists m,
    messages (state (exec (append a) w)) = messages (state w) ++ [m] /\
    id m = id_at w 0 /\
    now_calls (exec (append a) w) = S (now_calls w) /\
    random_calls (exec (append a) w) = S (random_calls w) /\
    Date_now (exec (append a) w) = Date_now w /\
    Math_random (exec (append a) w) = Math_random w.
Proof.
  destruct w as [[ms inp ld did fn ue ce] pv rq co dn nc mr rc].
  unfold id_at. destruct a; step; eexists; (split; [reflexivity|]);
    cbn [id]; by rewrite !Nat.add_0_r.
Qed.

(** C8 as the code has it: every appended message gets the
    double-precision sum of a clock reading and a random draw as its
    identifier and earlier messages are left alone, so that the
    identifiers appended are pairwise different exactly when those sums
    are. *)
Theorem appended_ids_are_clock_plus_draw (ops : list Append) (w : World) :
  exists news,
    messages (state (append_all ops w)) = messages (state w) ++ news /\
    length news = length ops /\
    List.map id news = List.map (id_at w) (seq 0 (length ops)) /\
    (NoDup (List.map id news) <-> NoDup (List.map (id_at w) (seq 0 (length ops)))).
Proof.
  assert (exists news,
    messages (state (append_all ops w)) = messages (state w) ++ news /\
    List.map id news = List.map (id_at w) (seq 0 (length ops))) as (news & Hlog & Hids).
  { revert w. induction ops as [|a ops IH]; intros w.
    - exists []. by rewrite app_nil_r.
    - change (append_all (a :: ops) w) with (append_all ops (exec (append a) w)).
      destruct (append_one a w) as (m & Hm & Hid & Hn & Hr & Hd & Hmr).
      destruct (IH (exec (append a) w)) as (news & Hlog & Hids).
      exists (m :: news). split.
      + by rewrite Hlog, Hm, <- app_assoc.
      + simpl. rewrite Hid, Hids. f_equal. rewrite <- seq_shift, map_map.
        apply map_ext. intros k. unfold id_at. rewrite Hn, Hr, Hd, Hmr.
        by rewrite !Nat.add_succ_comm. }
  exists news. split; [done|]. split.
  - apply (f_equal length) in Hids. by rewrite !length_map, length_seq in Hids.
  - split; [done|]. by rewrite Hids.
Qed.

End Handlers.

Lemma handleSend_blank_input_witness :
  let w := exec (setInput (u16 "   " ++ LF)) Reference.sample_world in
  requests (exec (handleSend (Eng := Reference.V8) (Reference.ok_response VNull)) w) = requests w /\
  messages (state (exec (handleSend (Eng := Reference.V8) (Reference.ok_response VNull)) w))
    = messages (state w).
Proof.
  apply (handleSend_blank_input (Num := Reference.IntNumber) (Eng := Reference.V8)).
  vm_compute. reflexivity.
Defined.

Lemma handleSend_without_dataset_witness :
  let w := exec (setInput (u16 "hi")) Reference.sample_world in
  requests (exec (handleSend (Eng := Reference.V8) (Reference.ok_response VNull)) w) = requests w /\
  length (messages (state (exec (handleSend (Eng := Reference.V8) (Reference.ok_response VNull)) w))) = 2%nat.
Proof.
  intros w.
  destruct (handleSend_without_dataset (Num := Reference.IntNumber) (Eng := Reference.V8)
              (Reference.ok_response VNull) w) as [Hrq Hms].
  - vm_compute. discriminate.
  - vm_compute. reflexivity.
  - split; [exact Hrq|]. rewrite Hms. reflexivity.
Defined.

Lemma handleSend_forecast_witness :
  List.map kind
    (messages (state (exec (handleSend (Eng := Reference.V8)
                              (Reference.ok_response Reference.forecast_body))
                           Reference.ready_world)))
  = List.map kind (messages (state Reference.ready_world)) ++ [None; Some forecast].
Proof.
  rewrite (handleSend_forecast (Eng := Reference.V8) Reference.ready_world
             (Reference.ok_response Reference.forecast_body) Reference.forecast_body).
  - rewrite map_app. reflexivity.
  - vm_compute. discriminate.
  - vm_compute. reflexivity.
  - vm_compute. reflexivity.
  - vm_compute. reflexivity.
Defined.



Lemma handleFileUpload_failure_witness :
  let w' := exec (handleFileUpload (Eng := Reference.V8) [mkFile (u16 "x.csv")]
                    (Reference.ok_response Reference.rejected_body))
                 Reference.sample_world in
  uploadError (state w') = u16 "not a CSV" /\
  length (messages (state w')) = 2%nat /\
  datasetId (state w') = VNull.
Proof.
  destruct (handleFileUpload_failure (Eng := Reference.V8) Reference.sample_world
              (mkFile (u16 "x.csv")) []
              (Reference.ok_response Reference.rejected_body) (u16 "not a CSV"))
    as (Herr & Hlog & Hid).
  - apply (fails_rejected _ _ _ Reference.rejected_body); vm_compute; reflexivity.
  - split; [exact Herr|]. split; [|exact Hid].
    rewrite Hlog. reflexivity.
Defined.

Lemma datasetId_tracks_latest_upload_witness :
  let evs := [ Pick_file [mkFile (u16 "x.csv")]
                 (Reference.ok_response Reference.upload_body);
               Type_input (u16 " hi ");
               Submit (Reference.ok_response Reference.plain_body) ] in
  datasetId (state (run (Eng := Reference.V8) evs Reference.sample_world))
    = Reference.str "d1" /\
  exists text,
    requests (run (Eng := Reference.V8) evs Reference.sample_world) =
    requests (run (Eng := Reference.V8) (take 2 evs) Reference.sample_world) ++
    [chat_request (Reference.str "d1") text].
Proof.
  intros evs.
  destruct (datasetId_tracks_latest_upload (Eng := Reference.V8) evs Reference.sample_world)
    as (Hlast & Hup & Hchat).
  split.
  - exact (Hup [] (mkFile (u16 "x.csv")) [] _ Reference.upload_body
             [ Type_input (u16 " hi ");
               Submit (Reference.ok_response Reference.plain_body) ]
             eq_refl eq_refl).
  - destruct (Hchat (take 2 evs) (Reference.ok_response Reference.plain_body) [] eq_refl)
      as [Hnone | (text & _ & Hsent)].
    + vm_compute in Hnone. discriminate Hnone.
    + exists text. exact Hsent.
Defined.

(** C8 as stated fails: the preview and the hint that one successful
    upload appends are created within the same millisecond, and two
    draws that differ can still round to the same sum. *)
Lemma message_ids_collide :
  let w' := exec (handleFileUpload (Eng := Reference.V8) [mkFile (u16 "x.csv")]
                    (Reference.ok_response Reference.upload_body))
                 Reference.busy_world in
  exists m1 m2,
    messages (state w') !! 1%nat = Some m1 /\
    messages (state w') !! 2%nat = Some m2 /\
    kind m1 = Some upload_preview /\ kind m2 = None /\
    id m1 = id m2 /\
    Math_random Reference.busy_world 0 <> Math_random Reference.busy_world 1.
Proof.
  eexists. eexists.
  split; [vm_compute; reflexivity|]. split; [vm_compute; reflexivity|].
  split; [reflexivity|]. split; [reflexivity|]. split; [vm_compute; reflexivity|].
  intros H. apply (f_equal (fun x => PrimFloat.eqb x 0x1p-2%float)) in H.
  vm_compute in H. discriminate H.
Qed.

Lemma appended_ids_are_clock_plus_draw_witness :
  exists news,
    messages (state (append_all
                       [User (u16 "hi"); Bot (u16 "Plan ready.") false]
                       Reference.sample_world))
      = messages (state Reference.sample_world) ++ news /\
    NoDup (List.map id news).
Proof.
  destruct (appended_ids_are_clock_plus_draw
              [User (u16 "hi"); Bot (u16 "Plan ready.") false] Reference.sample_world)
    as (news & Hlog & _ & _ & Hiff).
  exists news. split; [exact Hlog|]. apply Hiff.
  apply NoDup_cons. split.
  - intros Hin. apply list_elem_of_singleton in Hin.
    apply (f_equal (fun x => PrimFloat.eqb x (id_at Reference.sample_world 0))) in Hin.
    vm_compute in Hin. discriminate Hin.
  - apply NoDup_singleton.
Defined.

(* ===================================================================== *)
(** ** Worked examples *)
(* ===================================================================== *)

Example dec_samples :
  dec 0 = u16 "0" /\ dec 7 = u16 "7" /\ dec 404 = u16 "404" /\ dec 1000 = u16 "1000".
Proof. repeat split; reflexivity. Qed.

Example trim_sample : trim (u16 "  a b " ++ LF) = u16 "a b".
Proof. reflexivity. Qed.

Example indexOf_samples :
  indexOf (u16 "abcabc") (u16 "ca") = 2 /\
  indexOf (u16 "abcabc") (u16 "x") = -1 /\
  indexOf (u16 "abc") [] = 0.
Proof. repeat split; reflexivity. Qed.

Example first_seen_sample :
  first_seen [u16 "b"; u16 "a"; u16 "b"; u16 "c"; u16 "a"] = [u16 "b"; u16 "a"; u16 "c"].
Proof. reflexivity. Qed.

(** The end-to-end upload of the specification: a preview with one row,
    then the hint, and [datasetId] set. *)
Example upload_end_to_end :
  let w' := exec (handleFileUpload (Eng := Reference.V8) [mkFile (u16 "x.csv")]
                    (Reference.ok_response Reference.upload_body))
                 Reference.sample_world in
  datasetId (state w') = Reference.str "d1" /\
  List.map content (drop 1 (messages (state w'))) =
    [ UploadPreview (Reference.str "x.csv") (Reference.str "d1")
        [ VObj [ Reference.field "a" (Reference.int 1) ] ];
      Text upload_hint ] /\
  isLoading (state w') = false /\ picker_value w' = [].
Proof. repeat split; vm_compute; reflexivity. Qed.

(* ===================================================================== *)
(** ** Further properties of the handlers *)
(* ===================================================================== *)

Section Sessions.
Context {Num : JSNumber} {Eng : Engine}.

(** A chat turn that fails records the reason in [chatError], adds the
    user's message and one error-flagged bot message carrying the
    reason, keeps [datasetId] and ends with the loading flag cleared. *)
Theorem handleSend_failure (w : World) (net : FetchOutcome) (reason : jsstring) :
  trim (input (state w)) <> [] ->
  truthy (datasetId (state w)) = true ->
  chat_fails net reason ->
  let w' := exec (handleSend net) w in
  let msg := str_or reason (u16 "Sorry, something went wrong. Please try again.") in
  chatError (state w') = msg /\
  messages (state w') =
    messages (state w) ++
    [ {| id := id_at w 0; sender := user; isError := None;
         content := Text (trim (input (state w))) |};
      {| id := id_at w 1; sender := bot; isError := Some true;
         content := Text (u16 "Error: " ++ msg) |} ] /\
  datasetId (state w') = datasetId (state w) /\
  isLoading (state w') = false.
Proof.
  intros Htext Hds Hfail.
  destruct w as [[ms inp ld did fn ue ce] pv rq co dn nc mr rc].
  cbn [state input datasetId] in Htext, Hds. unfold id_at. step.
  destruct (trim inp) as [|c t] eqn:Ht; [done|]. rewrite Hds. step.
  destruct Hfail as [e | [st js] Hok | [st js] e Hok Hjs | [st js] data Hok Hjs Hnull
                    | [st js] data Hok Hjs Hnn Hrej];
    cbn [json status] in *; subst; step;
    rewrite ?Hok; step; rewrite ?Hnull, ?Hnn; step; rewrite ?Hrej; crunch;
    rewrite <- ?app_assoc, ?Nat.add_0_r, ?Nat.add_1_r; by repeat split.
Qed.

(** A blank submit does what clearing the chat error does, and nothing
    else. *)
Theorem handleSend_blank_clears_chatError (net : FetchOutcome) (w : World) :
  trim (input (state w)) = [] ->
  handleSend net w = setChatError [] w.
Proof.
  intros Hblank. destruct w as [[ms inp ld did fn ue ce] pv rq co dn nc mr rc].
  cbn [state input] in Hblank. step. rewrite Hblank. by step.
Qed.

(** No exception leaves a handler. *)
Theorem handlers_return (ev : Event) (w : World) :
  fst (handle ev w) = Returned unit tt.
Proof.
  destruct w as [[ms inp ld did fn ue ce] pv rq co dn nc mr rc].
  destruct ev as [v | [|file files] net | net]; try reflexivity.
  - destruct net as [e | [st [e | data]]]; crunch; reflexivity.
  - step. destruct (trim inp) as [|c t] eqn:Ht; [reflexivity|].
    destruct (truthy did) eqn:Hd; step; [|reflexivity].
    destruct net as [e | [st [e | data]]]; crunch;
      repeat match goal with
        | |- context [match ?v with VStr _ => _ | _ => _ end] => destruct v
        end;
      crunch; reflexivity.
Qed.

(** What one event does to the log, the network and the loading flag:
    at most two messages are appended behind the old ones, at most one
    request is issued, and it is the upload of the first file of the
    event's selection or a chat turn with the current dataset and the
    trimmed text; a page that was idle is idle again. *)
Lemma handle_effect (ev : Event) (w : World) :
  (exists news, messages (state (exec (handle ev) w)) = messages (state w) ++ news /\
                (length news <= 2)%nat) /\
  (exists sent, requests (exec (handle ev) w) = requests w ++ sent /\
                (length sent <= 1)%nat /\
                Forall (fun rq =>
                          (exists file files net,
                              ev = Pick_file (file :: files) net /\
                              rq = upload_request file) \/
                          (exists net,
                              ev = Submit net /\
                              rq = chat_request (datasetId (state w))
                                                (trim (input (state w))) /\
                              truthy (datasetId (state w)) = true /\
                              trim (input (state w)) <> [])) sent) /\
  (isLoading (state w) = false -> isLoading (state (exec (handle ev) w)) = false).
Proof.
  destruct w as [[ms inp ld did fn ue ce] pv rq co dn nc mr rc].
  assert (forall (l : list Message), exists news, l = l ++ news /\ (length news <= 2)%nat) as Hm0.
  { intros l. exists []. by rewrite app_nil_r; simpl; split; [|lia]. }
  assert (forall (l : list Request) P, exists sent, l = l ++ sent /\ (length sent <= 1)%nat /\
            Forall P sent) as Hr0.
  { intros l P. exists []. rewrite app_nil_r. simpl. split; [done|]. split; [lia|constructor]. }
  destruct ev as [v | [|file files] net | net].
  - step. split; [apply Hm0|]. split; [apply Hr0 | done].
  - step. split; [apply Hm0|]. split; [apply Hr0 | done].
  - split; [|split].
    + destruct net as [e | [st [e | data]]]; crunch; rewrite <- ?app_assoc;
        eexists; (split; [reflexivity | simpl; lia]).
    + destruct net as [e | [st [e | data]]]; crunch;
        (eexists; split; [reflexivity|]; split; [simpl; lia|]);
        (constructor; [left; eexists file, files, _; by split | constructor]).
    + intros _. destruct net as [e | [st [e | data]]]; crunch; reflexivity.
  - cbn [state datasetId input].
    step. destruct (trim inp) as [|c t] eqn:Ht.
    { split; [apply Hm0|]. split; [apply Hr0 | done]. }
    destruct (truthy did) eqn:Hd; step.
    2:{ split; [eexists; split; [reflexivity | simpl; lia]|]. split; [apply Hr0 | done]. }
    split; [|split].
    + destruct net as [e | [st [e | data]]]; crunch;
        repeat match goal with
          | |- context [match ?v with VStr _ => _ | _ => _ end] => destruct v
          end;
        crunch; rewrite <- ?app_assoc; eexists; (split; [reflexivity | simpl; lia]).
    + destruct net as [e | [st [e | data]]]; crunch;
        repeat match goal with
          | |- context [match ?v with VStr _ => _ | _ => _ end] => destruct v
          end;
        crunch;
        (eexists; split; [reflexivity|]; split; [simpl; lia|]);
        (constructor; [right; eexists; by repeat split | constructor]).
    + intros _. destruct net as [e | [st [e | data]]]; crunch;
        repeat match goal with
          | |- context [match ?v with VStr _ => _ | _ => _ end] => destruct v
          end;
        crunch; reflexivity.
Qed.

(** Over a whole session the log only grows at its end, by at most two
    messages per event. *)
Theorem log_is_append_only (evs : list Event) (w : World) :
  exists news,
    messages (state (run evs w)) = messages (state w) ++ news /\
    (length news <= 2 * length evs)%nat.
Proof.
  revert w. induction evs as [|ev evs IH]; intros w.
  - exists []. by rewrite app_nil_r.
  - change (run (ev :: evs) w) with (run evs (exec (handle ev) w)).
    destruct (handle_effect ev w) as [(n1 & H1 & Hl1) _].
    destruct (IH (exec (handle ev) w)) as (n2 & H2 & Hl2).
    exists (n1 ++ n2). rewrite H2, H1, <- app_assoc. split; [done|].
    rewrite length_app. simpl. lia.
Qed.

(** Over a whole session at most one request goes out per event; an
    upload request carries the first file of the selection of one of the
    session's file events, and a chat request comes from one of its
    submits and carries a truthy dataset id and a non-empty text. *)
Theorem session_requests (evs : list Event) (w : World) :
  exists sent,
    requests (run evs w) = requests w ++ sent /\
    (length sent <= length evs)%nat /\
    Forall (fun rq =>
              (exists file files net,
                  Pick_file (file :: files) net ∈ evs /\
                  rq = upload_request file) \/
              (exists net d text,
                  Submit net ∈ evs /\
                  rq = chat_request d text /\
                  truthy d = true /\ text <> [])) sent.
Proof.
  revert w. induction evs as [|ev evs IH]; intros w.
  - exists []. rewrite app_nil_r. split; [done|]. split; [done | constructor].
  - change (run (ev :: evs) w) with (run evs (exec (handle ev) w)).
    destruct (handle_effect ev w) as (_ & (s1 & H1 & Hl1 & HF1) & _).
    destruct (IH (exec (handle ev) w)) as (s2 & H2 & Hl2 & HF2).
    exists (s1 ++ s2). rewrite H2, H1, <- app_assoc. split; [done|]. split.
    + rewrite length_app. simpl. lia.
    + apply Forall_app. split.
      * eapply Forall_impl; [exact HF1|]. intros rq0 [(file & files & net & -> & ->)
                                                     |(net & -> & -> & Hd & Ht)].
        -- left. exists file, files, net. split; [apply list_elem_of_here | done].
        -- right. eexists net, _, _. split; [apply list_elem_of_here | done].
      * eapply Forall_impl; [exact HF2|]. intros rq0 [(file & files & net & Hin & ->)
                                                     |(net & d & text & Hin & -> & Hd & Ht)].
        -- left. exists file, files, net. split; [by apply list_elem_of_further | done].
        -- right. exists net, d, text. split; [by apply list_elem_of_further | done].
Qed.

(** When every request of a session settles, with a response or with a
    network error, a page that is idle before the session is idle after
    it: each handler clears the loading flag it set. *)
Theorem session_ends_idle (evs : list Event) (w : World) :
  isLoading (state w) = false -> isLoading (state (run evs w)) = false.
Proof.
  revert w. induction evs as [|ev evs IH]; intros w Hidle; [done|].
  change (run (ev :: evs) w) with (run evs (exec (handle ev) w)).
  apply IH. by apply handle_effect.
Qed.

(** On an idle page the Send button is enabled exactly when a submit
    reaches the network; the turn then clears the input and ends idle. *)
Theorem send_enabled_iff_request (net : FetchOutcome) (w : World) :
  isLoading (state w) = false ->
  (send_disabled (state w) = false ->
     requests (exec (handleSend net) w) =
       requests w ++ [chat_request (datasetId (state w)) (trim (input (state w)))] /\
     input (state (exec (handleSend net) w)) = [] /\
     isLoading (state (exec (handleSend net) w)) = false) /\
  (send_disabled (state w) = true ->
     requests (exec (handleSend net) w) = requests w).
Proof.
  intros Hidle.
  destruct w as [[ms inp ld did fn ue ce] pv rq co dn nc mr rc].
  unfold send_disabled, chat_request. cbn [state isLoading datasetId input] in *.
  subst ld. cbn [orb]. step.
  destruct (trim inp) as [|c t] eqn:Ht.
  { split; [by rewrite orb_true_r | done]. }
  destruct (truthy did) eqn:Hd; step; [|by split].
  split; [intros _ | done].
  destruct net as [e | [st [e | data]]]; crunch;
    repeat match goal with
      | |- context [match ?v with VStr _ => _ | _ => _ end] => destruct v
      end;
    crunch; by repeat split.
Qed.

(** Everything an accepted upload changes. *)
Lemma upload_effect (w : World) (file : File) (files : list File)
    (net : FetchOutcome) (data : jsval) :
  accepted_body net = Some data ->
  let w' := exec (handleFileUpload (file :: files) net) w in
  let filename := js_or (get_opt data (u16 "filename")) (VStr (file_name file)) in
  let head := get_opt (get_opt data (u16 "preview")) (u16 "head") in
  datasetId (state w') = get_opt data (u16 "dataset_id") /\
  fileName (state w') = filename /\
  uploadError (state w') = [] /\ chatError (state w') = [] /\
  input (state w') = input (state w) /\
  isLoading (state w') = false /\
  requests w' = requests w ++ [upload_request file] /\
  messages (state w') =
    messages (state w) ++
    [ {| id := id_at w 0; sender := bot; isError := Some false;
         content := UploadPreview filename (get_opt data (u16 "dataset_id"))
                      match head with VArr rows => rows | _ => [] end |};
      {| id := id_at w 1; sender := bot; isError := Some false;
         content := Text upload_hint |} ].
Proof.
  intros Hacc.
  apply accepted_body_inv in Hacc as (st & -> & Hok & Hbody & Hnn).
  destruct w as [[ms inp ld did fn ue ce] pv rq co dn nc mr rc].
  unfold id_at, upload_request, js_or. step.
  rewrite Hok. step. rewrite Hnn. step. rewrite Hbody. step.
  crunch; rewrite <- ?app_assoc, ?Nat.add_0_r, ?Nat.add_1_r; repeat split;
    try reflexivity.
  all: repeat f_equal;
    destruct (get_opt (get_opt data (u16 "preview")) (u16 "head"));
    try discriminate; reflexivity.
Qed.

(** An accepted upload: what it leaves in the state, the log and the
    network.  The preview holds the rows of [preview.head] when that is
    an array and none otherwise. *)
Theorem handleFileUpload_success (w : World) (file : File) (files : list File)
    (net : FetchOutcome) (data : jsval) :
  accepted_body net = Some data ->
  let w' := exec (handleFileUpload (file :: files) net) w in
  let filename := js_or (get_opt data (u16 "filename")) (VStr (file_name file)) in
  let head := get_opt (get_opt data (u16 "preview")) (u16 "head") in
  datasetId (state w') = get_opt data (u16 "dataset_id") /\
  fileName (state w') = filename /\
  uploadError (state w') = [] /\ chatError (state w') = [] /\
  input (state w') = input (state w) /\
  requests w' = requests w ++ [upload_request file] /\
  messages (state w') =
    messages (state w) ++
    [ {| id := id_at w 0; sender := bot; isError := Some false;
         content := UploadPreview filename (get_opt data (u16 "dataset_id"))
                      match head with VArr rows => rows | _ => [] end |};
      {| id := id_at w 1; sender := bot; isError := Some false;
         content := Text upload_hint |} ].
Proof.
  intros Hacc w' filename head.
  destruct (upload_effect w file files net data Hacc)
    as (Hid & Hfn & Hue & Hce & Hin & _ & Hrq & Hlog).
  fold w' filename head in Hid, Hfn, Hue, Hce, Hin, Hrq, Hlog.
  repeat split; assumption.
Qed.

(** An upload is accepted whatever [dataset_id] it returns; the chat
    opens only if that is truthy.  Without it the preview is in the log,
    the status line still says that nothing was uploaded, the text field
    stays disabled and no later submit reaches the network. *)
Theorem upload_without_dataset_id (w : World) (file : File) (files : list File)
    (net : FetchOutcome) (data : jsval) :
  accepted_body net = Some data ->
  truthy (get_opt data (u16 "dataset_id")) = false ->
  let w' := exec (handleFileUpload (file :: files) net) w in
  (exists m hint, messages (state w') = messages (state w) ++ [m; hint] /\
                  kind m = Some upload_preview) /\
  status_line (state w') = u16 "No file uploaded yet" /\
  input_disabled (state w') = true /\
  forall text net', requests (exec (handleSend net') (exec (setInput text) w')) = requests w'.
Proof.
  intros Hacc Hnone w'.
  destruct (upload_effect w file files net data Hacc)
    as (Hid & _ & _ & _ & _ & _ & _ & Hlog).
  fold w' in Hid, Hlog. split; [|split; [|split]].
  - eexists. eexists. split; [exact Hlog | reflexivity].
  - unfold status_line. by rewrite Hid, Hnone.
  - unfold input_disabled. rewrite Hid, Hnone. apply orb_true_r.
  - intros text net'.
    destruct (handleSend_session (exec (setInput text) w') net') as [_ [H | [Hset _]]].
    + rewrite H. by destruct w' as [[]].
    + replace (datasetId (state (exec (setInput text) w'))) with (datasetId (state w')) in Hset
        by (by destruct w' as [[]]).
      congruence.
Qed.



(** The revision with forecast rendering changes nothing for a turn
    whose response carries no forecast tables: it behaves as the
    revision before it, on every outcome of the request. *)
Theorem handleSend_agrees_with_plain (net : FetchOutcome) (w : World) :
  (forall data, accepted_body net = Some data -> has_forecast_tables data = false) ->
  handleSend net w = handleSend_plain net w.
Proof.
  intros Hfc. destruct w as [[ms inp ld did fn ue ce] pv rq co dn nc mr rc].
  unfold handleSend_plain. step.
  destruct (trim inp) as [|c t] eqn:Ht; [reflexivity|].
  destruct (truthy did) eqn:Hd; step; [|reflexivity].
  destruct net as [e | [st [e | data]]]; step; try reflexivity;
    (destruct (response_ok _) eqn:Hok; step; [|reflexivity]); try reflexivity.
  destruct (is_nullish data) eqn:Hnn; step; [reflexivity|].
  destruct (truthy (get_opt data (u16 "ok"))) eqn:Hbody; step.
  2:{ destruct (truthy (get_opt data (u16 "error"))); reflexivity. }
  assert (has_forecast_tables data = false) as Hno.
  { apply Hfc. simpl. by rewrite Hok, Hbody. }
  unfold has_forecast_tables in Hno. apply orb_false_iff in Hno as [Hh Htl].
  repeat first [ rewrite Hh | rewrite Htl | progress step
               | progress cbn [truthy isArray is_nullish]
               | branch ];
    reflexivity.
Qed.

End Sessions.

(* ===================================================================== *)
(** ** Further properties of the rendering helpers *)
(* ===================================================================== *)

Section TrimFacts.















End TrimFacts.

Section CleanedText.
Context {Num : JSNumber}.



End CleanedText.

Section Summary.
Context {Num : JSNumber}.

Lemma filter_Boolean_labels (os : list (option (jsstring * jsval))) (ks : list jsstring) :
  Forall2 (fun o k => match o with Some x => fst x = k | None => True end) os ks ->
  sublist (List.map fst (filter_Boolean os)) ks.
Proof.
  induction 1 as [|o k os ks Hok _ IH]; simpl; [constructor|].
  destruct o as [x|]; simpl.
  - rewrite Hok. by apply sublist_skip.
  - by apply sublist_cons.
Qed.

(** Whatever the results hold, a summary that is rendered is not empty
    and lists its facts in the fixed order of the labels, each at most
    once. *)
Theorem ForecastSummary_layout (results : jsval) (items : list (jsstring * jsval)) :
  ForecastSummary results = Some items ->
  items <> [] /\
  sublist (List.map fst items) summary_labels /\
  NoDup (List.map fst items).
Proof.
  unfold ForecastSummary. destruct (truthy results); [|discriminate]. simpl negb. cbv iota.
  match goal with
  | |- match filter_Boolean ?os with _ => _ end = _ -> _ =>
      assert (sublist (List.map fst (filter_Boolean os)) summary_labels) as Hsub;
      [|destruct (filter_Boolean os) as [|i l] eqn:E; [discriminate|]]
  end.
  { apply filter_Boolean_labels. unfold summary_labels.
    repeat (constructor;
            [by repeat match goal with
                  | |- context [if ?b then _ else _] => destruct b
                  | |- context [match ?v with VArr _ => _ | _ => _ end] => destruct v
                  end|]).
    constructor. }
  intros [= <-]. split; [discriminate|]. split; [exact Hsub|].
  eapply sublist_NoDup; [|exact Hsub].
  apply (bool_decide_unpack _). by vm_compute.
Qed.

(** Nothing is rendered exactly when no fact is there: both counts
    undefined, the four configuration fields falsy and no regressor
    array. *)
Theorem ForecastSummary_nothing (results : jsval) :
  truthy results = true ->
  let cfg := js_or (get_opt results (u16 "config_used"))
               (js_or (get_opt results (u16 "configUsed")) VNull) in
  ForecastSummary results = None <->
    is_defined (nullish_or (get_opt results (u16 "training_rows"))
                           (get_opt results (u16 "trainingRows"))) = false /\
    is_defined (nullish_or (get_opt results (u16 "input_rows"))
                           (get_opt results (u16 "inputRows"))) = false /\
    truthy (get_opt cfg (u16 "ds_col")) = false /\
    truthy (get_opt cfg (u16 "y_col")) = false /\
    truthy (get_opt cfg (u16 "freq")) = false /\
    truthy (get_opt cfg (u16 "periods")) = false /\
    isArray (get_opt cfg (u16 "regressors")) = false.
Proof.
  intros Ht cfg. unfold ForecastSummary. rewrite Ht. simpl negb. cbv iota zeta.
  fold cfg.
  destruct (is_defined (nullish_or (get_opt results (u16 "training_rows")) _));
    destruct (is_defined (nullish_or (get_opt results (u16 "input_rows")) _));
    destruct (truthy (get_opt cfg (u16 "ds_col")));
    destruct (truthy (get_opt cfg (u16 "y_col")));
    destruct (truthy (get_opt cfg (u16 "freq")));
    destruct (truthy (get_opt cfg (u16 "periods")));
    destruct (get_opt cfg (u16 "regressors"));
    simpl; split; intros H; try discriminate H; try done;
    try (destruct H as (? & ? & ? & ? & ? & ? & ?); discriminate).
Qed.


End Summary.

Section Bubbles.
Context {Num : JSNumber} {Eng : Engine}.





End Bubbles.

Section UniformTable.
Context {Num : JSNumber}.






End UniformTable.

(* ===================================================================== *)
(** ** The further properties at work *)
(* ===================================================================== *)

Lemma handleSend_failure_witness :
  let w' := exec (handleSend (Eng := Reference.V8) Reference.server_error)
                 Reference.ready_world in
  chatError (state w') = u16 "Chat request failed: 500" /\
  isLoading (state w') = false.
Proof.
  destruct (handleSend_failure (Eng := Reference.V8) Reference.ready_world
              Reference.server_error (u16 "Chat request failed: 500"))
    as (Herr & _ & _ & Hidle).
  - vm_compute. discriminate.
  - vm_compute. reflexivity.
  - exact (fails_http (u16 "Chat request failed: ") (u16 "Chat failed")
             {| status := 500; json := inl (Error (u16 "Unexpected token <")) |}
             eq_refl).
  - split; [exact Herr | exact Hidle].
Defined.

Lemma handleSend_blank_clears_chatError_witness :
  handleSend (Eng := Reference.V8) Reference.server_error Reference.sample_world
  = setChatError [] Reference.sample_world.
Proof.
  apply (handleSend_blank_clears_chatError (Eng := Reference.V8)).
  vm_compute. reflexivity.
Defined.

Lemma session_ends_idle_witness :
  isLoading (state (run (Eng := Reference.V8)
                      [ Pick_file [mkFile (u16 "x.csv")]
                          (Reference.ok_response Reference.upload_body);
                        Type_input (u16 "hi");
                        Submit Reference.server_error ]
                      Reference.sample_world)) = false.
Proof.
  apply (session_ends_idle (Eng := Reference.V8)). vm_compute. reflexivity.
Defined.

Lemma send_enabled_iff_request_witness :
  length (requests (exec (handleSend (Eng := Reference.V8) Reference.server_error)
                         Reference.ready_world))
  = S (length (requests Reference.ready_world)).
Proof.
  destruct (send_enabled_iff_request (Eng := Reference.V8) Reference.server_error
              Reference.ready_world) as [Hsend _].
  - vm_compute. reflexivity.
  - destruct Hsend as (Hrq & _ & _); [vm_compute; reflexivity|].
    rewrite Hrq, length_app. simpl. lia.
Defined.

Lemma handleFileUpload_success_witness :
  let w' := exec (handleFileUpload (Eng := Reference.V8) [mkFile (u16 "local.csv")]
                    (Reference.ok_response Reference.upload_body))
                 Reference.sample_world in
  datasetId (state w') = Reference.str "d1" /\
  fileName (state w') = Reference.str "x.csv".
Proof.
  destruct (handleFileUpload_success (Eng := Reference.V8) Reference.sample_world
              (mkFile (u16 "local.csv")) []
              (Reference.ok_response Reference.upload_body) Reference.upload_body)
    as (Hid & Hfn & _).
  - vm_compute. reflexivity.
  - split; [exact Hid | exact Hfn].
Defined.

Lemma upload_without_dataset_id_witness :
  let w' := exec (handleFileUpload (Eng := Reference.V8) [mkFile (u16 "x.csv")]
                    (Reference.ok_response Reference.no_id_body))
                 Reference.sample_world in
  status_line (state w') = u16 "No file uploaded yet" /\
  input_disabled (state w') = true.
Proof.
  destruct (upload_without_dataset_id (Eng := Reference.V8) Reference.sample_world
              (mkFile (u16 "x.csv")) []
              (Reference.ok_response Reference.no_id_body) Reference.no_id_body)
    as (_ & Hline & Hoff & _).
  - vm_compute. reflexivity.
  - vm_compute. reflexivity.
  - split; [exact Hline | exact Hoff].
Defined.



Lemma handleSend_agrees_with_plain_witness :
  handleSend (Eng := Reference.V8) (Reference.ok_response Reference.plain_body)
    Reference.ready_world
  = handleSend_plain (Eng := Reference.V8) (Reference.ok_response Reference.plain_body)
      Reference.ready_world.
Proof.
  apply (handleSend_agrees_with_plain (Eng := Reference.V8)).
  intros data H. vm_compute in H. injection H as <-. vm_compute. reflexivity.
Defined.

Lemma ForecastSummary_layout_witness :
  exists items,
    ForecastSummary Reference.summary_results = Some items /\
    List.map fst items =
      [ u16 "Training rows"; u16 "ds column"; u16 "y column"; u16 "Regressors" ] /\
    sublist (List.map fst items) summary_labels.
Proof.
  eexists. split; [vm_compute; reflexivity|]. split; [reflexivity|].
  eapply (ForecastSummary_layout Reference.summary_results). vm_compute. reflexivity.
Defined.

Lemma ForecastSummary_nothing_witness :
  ForecastSummary (VObj [ Reference.field "forecast_head" (VArr []);
                          Reference.field "config_used"
                            (VObj [ Reference.field "periods" (Reference.int 0) ]) ])
  = None.
Proof.
  apply (ForecastSummary_nothing
           (VObj [ Reference.field "forecast_head" (VArr []);
                   Reference.field "config_used"
                     (VObj [ Reference.field "periods" (Reference.int 0) ]) ])).
  - reflexivity.
  - repeat split; vm_compute; reflexivity.
Defined.




